(** * amps-py: the Python bridge between AMPS and user handlers

    A shallow embedding of [amps/__init__.py] (classes [Util], [Logger],
    [Action], [Endpoint], [Service]) and the proofs of its message
    exchange contract.

    Modelling conventions.
    - Python values that can travel through JSON are the type [val];
      a [dict] is an insertion-ordered association list with string
      keys, as CPython's [dict] is.  Floats are left out.  A Python
      [str] is a Rocq [string]; its characters stand for code points
      (so only the Latin-1 range is covered) and [len] counts them.
    - Exceptions are values of type [exn]: an instance of Python's
      [Exception] with its class and the text [str(e)] yields.  These
      are what [except Exception] handles.
    - Effects (the dictionaries the caller shares with a method, the
      file system, the random source, the calls and casts to the
      Erlang host) are threaded through a state-and-exception monad
      over the record [world].
    - The decoder [json.loads] and the read [open(p).read()] are
      taken as given: the definitions that call them take them as
      parameters.  [json.dumps], [uuid] and [os.path.basename] are
      modelled from the standard library's sources. *)

From stdpp Require Import base strings list gmap pretty.
From Stdlib Require Import ZArith Lia Ascii.

Local Open Scope string_scope.
Local Open Scope list_scope.
Local Open Scope Z_scope.

(** ** Characters and strings *)

Module Str.

(** The double quote, [chr(34)]. *)
Definition dq : ascii := ascii_of_nat 34.
(** The single quote, [chr(39)]. *)
Definition sq : ascii := ascii_of_nat 39.
(** The backslash, [chr(92)]. *)
Definition bs : ascii := ascii_of_nat 92.

Definition of_list (l : list ascii) : string := String.string_of_list_ascii l.
Definition to_list (s : string) : list ascii := String.list_ascii_of_string s.

Definition code (c : ascii) : Z := Z.of_nat (nat_of_ascii c).

(** [s.rfind(c) + 1 ; s[i:]] : the part of [s] after the last
    occurrence of [c], all of [s] when [c] does not occur. *)
Fixpoint after_last (c : ascii) (s : list ascii) : list ascii :=
  match s with
  | [] => []
  | x :: s' =>
      if existsb (Ascii.eqb c) s' then after_last c s'
      else if Ascii.eqb c x then s' else x :: s'
  end.

(** [s.startswith(p)]. *)
Fixpoint starts_with (p s : list ascii) : bool :=
  match p, s with
  | [], _ => true
  | _ :: _, [] => false
  | a :: p', b :: s' => Ascii.eqb a b && starts_with p' s'
  end.

(** [s.replace(pat, '')] for a non-empty [pat]: occurrences are found
    from the left and do not overlap.  [skip] counts the characters
    of the current occurrence still to drop. *)
Fixpoint remove_sub_aux (pat : list ascii) (skip : nat) (s : list ascii)
  : list ascii :=
  match s with
  | [] => []
  | c :: s' =>
      match skip with
      | S k => remove_sub_aux pat k s'
      | O =>
          if starts_with pat s
          then remove_sub_aux pat (length pat - 1) s'
          else c :: remove_sub_aux pat 0 s'
      end
  end.

Definition remove_sub (pat s : list ascii) : list ascii :=
  remove_sub_aux pat 0 s.

(** [s.lstrip(chars)], [s.rstrip(chars)], [s.strip(chars)]. *)
Fixpoint lstrip (chars s : list ascii) : list ascii :=
  match s with
  | [] => []
  | c :: s' => if bool_decide (c ∈ chars) then lstrip chars s' else s
  end.

Definition rstrip (chars s : list ascii) : list ascii :=
  rev (lstrip chars (rev s)).

Definition strip (chars s : list ascii) : list ascii :=
  rstrip chars (lstrip chars s).

End Str.

(** ** Hexadecimal formatting and parsing (['%032x' % n], [int(s, 16)]) *)

Module Hex.

Definition digits : list ascii :=
  Str.to_list "0123456789abcdef".

Definition digit (d : Z) : ascii := nth (Z.to_nat d) digits "0"%char.

(** Value of one character for [int(s, 16)]; [None] is a
    [ValueError]. *)
Definition digit_val (c : ascii) : option Z :=
  let n := Str.code c in
  if (48 <=? n) && (n <=? 57) then Some (n - 48)
  else if (97 <=? n) && (n <=? 102) then Some (n - 87)
  else if (65 <=? n) && (n <=? 70) then Some (n - 55)
  else None.

Definition is_lower_hex (c : ascii) : bool :=
  let n := Str.code c in
  ((48 <=? n) && (n <=? 57)) || ((97 <=? n) && (n <=? 102)).

(** The digits of [n], most significant first, in front of [acc]. *)
Fixpoint format_aux (fuel : nat) (n : Z) (acc : list ascii) : list ascii :=
  match fuel with
  | O => acc
  | S f =>
      let acc' := digit (n mod 16) :: acc in
      if n / 16 =? 0 then acc' else format_aux f (n / 16) acc'
  end.

(** ['%x' % n] for [0 <= n]. *)
Definition format_x (n : Z) : list ascii :=
  format_aux (S (Z.to_nat (Z.log2 n))) n [].

(** Left padding with zeros up to a minimal width. *)
Definition zfill (w : nat) (l : list ascii) : list ascii :=
  replicate (w - length l) "0"%char ++ l.

(** ['%032x' % n]. *)
Definition format_032x (n : Z) : list ascii := zfill 32 (format_x n).

(** [int(s, 16)] on a string of hexadecimal digits. *)
Definition parse_step (a : option Z) (c : ascii) : option Z :=
  match a, digit_val c with
  | Some v, Some d => Some (16 * v + d)
  | _, _ => None
  end.

Definition parse (l : list ascii) : option Z :=
  match l with
  | [] => None
  | _ => fold_left parse_step l (Some 0)
  end.

End Hex.

(** ** Python values, exceptions and built-in operations *)

#[warnings="-register-all"]
Inductive val : Type :=
| VNone
| VBool (b : bool)
| VInt (n : Z)
| VStr (s : string)
| VList (l : list val)
| VDict (d : list (string * val))
| VOpaque (type_name : string).
(** [VOpaque] is any other object (a socket, a function, a set): it
    has no length and no JSON encoding, and is true in a condition. *)

Abbreviation dict := (list (string * val)).

Inductive exn_class : Type :=
| KeyError | TypeError | ValueError | AttributeError | OSError | RuntimeError.

(** An instance of [Exception]: its class and the text of [str(e)]. *)
Record exn : Type := Exn { exn_cls : exn_class; exn_text : string }.

Inductive outcome (A : Type) : Type :=
| Return (a : A)
| Raise (e : exn).
Arguments Return {A} a.
Arguments Raise {A} e.

#[global] Instance outcome_ret : MRet outcome := fun A a => Return a.
#[global] Instance outcome_bind : MBind outcome := fun A B f m =>
  match m with
  | Return a => f a
  | Raise e => Raise e
  end.

Module Py.

(** [repr(k)] of a key without quotes or escapes, as in
    [KeyError('fpath')] whose text is ['fpath'] with its quotes. *)
Definition repr_key (k : string) : string :=
  String Str.sq k +:+ String Str.sq "".

Definition key_error {A} (k : string) : outcome A :=
  Raise (Exn KeyError (repr_key k)).

Definition type_name (v : val) : string :=
  match v with
  | VNone => "NoneType"
  | VBool _ => "bool"
  | VInt _ => "int"
  | VStr _ => "str"
  | VList _ => "list"
  | VDict _ => "dict"
  | VOpaque n => n
  end.

(** *** dict: an insertion-ordered map.  A list that repeats a key
    is read as [dict(pairs)] reads it: the last pair binds. *)

Fixpoint dict_get (k : string) (d : dict) : option val :=
  match d with
  | [] => None
  | (k', v) :: d' =>
      match dict_get k d' with
      | Some w => Some w
      | None => if String.eqb k' k then Some v else None
      end
  end.

(** [k in d] *)
Definition dict_has (k : string) (d : dict) : bool :=
  match dict_get k d with Some _ => true | None => false end.

(** [d[k] = v]: an existing key keeps its place. *)
Definition dict_set (k : string) (v : val) (d : dict) : dict :=
  if dict_has k d
  then map (fun p => if String.eqb (fst p) k then (k, v) else p) d
  else d ++ [(k, v)].

Fixpoint dict_remove (k : string) (d : dict) : dict :=
  match d with
  | [] => []
  | (k', v) :: d' =>
      if String.eqb k' k then dict_remove k d'
      else (k', v) :: dict_remove k d'
  end.

(** [del d[k]] *)
Definition dict_del (k : string) (d : dict) : outcome dict :=
  if dict_has k d then Return (dict_remove k d) else key_error k.

(** [{**a, **b}] *)
Definition dict_merge (a b : dict) : dict :=
  fold_left (fun acc p => dict_set (fst p) (snd p) acc) b a.

(** A display [{k1: v1, k2: v2, ...}]. *)
Definition dict_lit (l : list (string * val)) : dict := dict_merge [] l.

(** [v[k]] with a string key. *)
Definition subscript (v : val) (k : string) : outcome val :=
  match v with
  | VDict d =>
      match dict_get k d with
      | Some x => Return x
      | None => key_error k
      end
  | VStr _ =>
      Raise (Exn TypeError "string indices must be integers, not 'str'")
  | VList _ =>
      Raise (Exn TypeError "list indices must be integers or slices, not str")
  | _ =>
      Raise (Exn TypeError
               ("'" +:+ type_name v +:+ "' object is not subscriptable"))
  end.

(** [v.get(k)] *)
Definition get_method (v : val) (k : string) : outcome val :=
  match v with
  | VDict d => Return (default VNone (dict_get k d))
  | _ =>
      Raise (Exn AttributeError
               ("'" +:+ type_name v +:+ "' object has no attribute 'get'"))
  end.

(** The truth value of [v] in a condition. *)
Definition truthy (v : val) : bool :=
  match v with
  | VNone => false
  | VBool b => b
  | VInt n => negb (n =? 0)
  | VStr s => negb (String.eqb s "")
  | VList l => match l with [] => false | _ => true end
  | VDict d => match d with [] => false | _ => true end
  | VOpaque _ => true
  end.

(** [len(v)] *)
Definition len (v : val) : outcome Z :=
  match v with
  | VStr s => Return (Z.of_nat (String.length s))
  | VList l => Return (Z.of_nat (length l))
  | VDict d => Return (Z.of_nat (length d))
  | _ =>
      Raise (Exn TypeError
               ("object of type '" +:+ type_name v +:+ "' has no len()"))
  end.

(** [os.path.basename(p)] on a POSIX path. *)
Definition basename (p : string) : string :=
  Str.of_list (Str.after_last "/"%char (Str.to_list p)).

End Py.

(** ** [json.dumps] with its default settings *)

Module Json.

(** One character inside a JSON string ([ensure_ascii] is on). *)
Definition escape_char (c : ascii) : list ascii :=
  let n := Str.code c in
  if n =? 34 then [Str.bs; Str.dq]
  else if n =? 92 then [Str.bs; Str.bs]
  else if n =? 8 then [Str.bs; "b"%char]
  else if n =? 12 then [Str.bs; "f"%char]
  else if n =? 10 then [Str.bs; "n"%char]
  else if n =? 13 then [Str.bs; "r"%char]
  else if n =? 9 then [Str.bs; "t"%char]
  else if (n <? 32) || (126 <? n)
       then Str.bs :: "u"%char :: Hex.zfill 4 (Hex.format_x n)
  else [c].

Definition escape (s : string) : string :=
  Str.of_list (concat (map escape_char (Str.to_list s))).

Definition quote (s : string) : string :=
  String Str.dq (escape s) +:+ String Str.dq "".

Definition not_serializable {A} (v : val) : outcome A :=
  Raise (Exn TypeError
           ("Object of type " +:+ Py.type_name v +:+
            " is not JSON serializable")).

Fixpoint dumps (v : val) : outcome string :=
  match v with
  | VNone => Return "null"
  | VBool true => Return "true"
  | VBool false => Return "false"
  | VInt n => Return (pretty n)
  | VStr s => Return (quote s)
  | VList l =>
      parts ← (fix items (l : list val) : outcome (list string) :=
                 match l with
                 | [] => Return []
                 | x :: l' =>
                     s ← dumps x; r ← items l'; Return (s :: r)
                 end) l;
      Return ("[" +:+ String.concat ", " parts +:+ "]")
  | VDict d =>
      parts ← (fix items (d : dict) : outcome (list string) :=
                 match d with
                 | [] => Return []
                 | (k, x) :: d' =>
                     s ← dumps x; r ← items d';
                     Return ((quote k +:+ ": " +:+ s) :: r)
                 end) d;
      Return ("{" +:+ String.concat ", " parts +:+ "}")
  | VOpaque _ => not_serializable v
  end.

End Json.

(** ** The world a handler runs in *)

(** Terms sent to the Erlang host through erlport. *)
#[warnings="-register-all"]
Inductive term : Type :=
| Atom (name : string)
| Obj (v : val)
| Tuple (items : list term)
| TermList (items : list term).

(** Host handles (Erlang pids) are opaque. *)
Abbreviation handle := nat.

(** The two operations erlport offers on the host. *)
Inductive host_op : Type :=
| Call (module function : string) (args : list term)
| Cast (pid : handle) (message : term).

(** References to Python dict objects. *)
Abbreviation loc := nat.

Record world : Type := World {
  (** the dict objects; a reference bound to nothing is an empty dict *)
  w_heap : gmap loc dict;
  (** [os.path.getsize]: the size of the file each path names *)
  w_fs : gmap string Z;
  (** [os.urandom(16)], as a big-endian integer, for each draw *)
  w_entropy : nat -> Z;
  w_drawn : nat;
  (** the fault, if any, of a host operation, given every operation
      issued so far (the current one last) *)
  w_host : list host_op -> option exn;
  w_trace : list host_op;
}.

Definition set_heap (h : gmap loc dict) (w : world) : world :=
  World h (w_fs w) (w_entropy w) (w_drawn w) (w_host w) (w_trace w).
Definition set_drawn (n : nat) (w : world) : world :=
  World (w_heap w) (w_fs w) (w_entropy w) n (w_host w) (w_trace w).
Definition set_trace (t : list host_op) (w : world) : world :=
  World (w_heap w) (w_fs w) (w_entropy w) (w_drawn w) (w_host w) t.

(** Computations: they read and change the world and return or raise. *)
Definition M (A : Type) : Type := world -> outcome A * world.

#[global] Instance M_ret : MRet M := fun A a w => (Return a, w).
#[global] Instance M_bind : MBind M := fun A B f m w =>
  match m w with
  | (Return a, w') => f a w'
  | (Raise e, w') => (Raise e, w')
  end.


(** A pure outcome as a computation. *)
Definition lift {A} (o : outcome A) : M A := fun w => (o, w).

(** [try: body except Exception as e: handler(e)] *)
Definition try_except {A} (body : M A) (handler : exn -> M A) : M A :=
  fun w =>
    match body w with
    | (Return a, w') => (Return a, w')
    | (Raise e, w') => handler e w'
    end.

Module Env.

Definition load (l : loc) : M dict :=
  fun w => (Return (w_heap w !!! l), w).

Definition store (l : loc) (d : dict) : M unit :=
  fun w => (Return tt, set_heap (<[l := d]> (w_heap w)) w).

(** A new dict object. *)
Definition alloc (d : dict) : M loc :=
  fun w =>
    let l := fresh (dom (w_heap w)) in
    (Return l, set_heap (<[l := d]> (w_heap w)) w).

(** [d[k] = v] on the object at [l]. *)
Definition setitem (l : loc) (k : string) (v : val) : M unit :=
  d ← load l; store l (Py.dict_set k v d).

(** [del d[k]] on the object at [l]. *)
Definition delitem (l : loc) (k : string) : M unit :=
  d ← load l; d' ← lift (Py.dict_del k d); store l d'.

(** [d[k]] on the object at [l]. *)
Definition getitem (l : loc) (k : string) : M val :=
  d ← load l; lift (Py.subscript (VDict d) k).

(** [k in d] on the object at [l]. *)
Definition contains (l : loc) (k : string) : M bool :=
  d ← load l; mret (Py.dict_has k d).

(** [os.path.getsize(p)] *)
Definition getsize (p : val) : M Z :=
  fun w =>
    match p with
    | VStr path =>
        match w_fs w !! path with
        | Some n => (Return n, w)
        | None =>
            (Raise (Exn OSError
                      ("[Errno 2] No such file or directory: "
                       +:+ Py.repr_key path)), w)
        end
    | _ =>
        (Raise (Exn TypeError
                  ("stat: path should be string, bytes, os.PathLike or integer, not "
                   +:+ Py.type_name p)), w)
    end.

(** [os.urandom(16)] read as [int.from_bytes(_, 'big')]. *)
Definition urandom16 : M Z :=
  fun w => (Return (w_entropy w (w_drawn w) mod 2 ^ 128),
            set_drawn (S (w_drawn w)) w).

(** A host operation: it is issued, then the transport may fail. *)
Definition host (op : host_op) : M unit :=
  fun w =>
    let t := (w_trace w ++ [op])%list in
    match w_host w t with
    | Some e => (Raise e, set_trace t w)
    | None => (Return tt, set_trace t w)
    end.

(** [erlport.erlang.call(module, function, args)] *)
Definition call (module function : string) (args : list term) : M unit :=
  host (Call module function args).

(** [erlport.erlang.cast(pid, message)] *)
Definition cast (pid : handle) (message : term) : M unit :=
  host (Cast pid message).

End Env.

(** ** The [uuid] module, as far as [Util.get_id] uses it *)

Module UUID.

(** [UUID(..., version=v)]: the variant and version bits of RFC 4122. *)
Definition set_version (v n : Z) : Z :=
  let n := Z.land n (Z.lnot (Z.shiftl 0xc000 48)) in
  let n := Z.lor n (Z.shiftl 0x8000 48) in
  let n := Z.land n (Z.lnot (Z.shiftl 0xf000 64)) in
  Z.lor n (Z.shiftl v 76).

(** [uuid.uuid4()], from the sixteen random bytes [r]. *)
Definition uuid4 (r : Z) : Z := set_version 4 r.

Definition slice (i j : nat) (l : list ascii) : list ascii :=
  take (j - i) (drop i l).

(** [str(u)]: the form 8-4-4-4-12. *)
Definition to_str (n : Z) : list ascii :=
  let h := Hex.format_032x n in
  slice 0 8 h ++ "-"%char :: slice 8 12 h ++ "-"%char :: slice 12 16 h
    ++ "-"%char :: slice 16 20 h ++ "-"%char :: drop 20 h.

(** [UUID(hex)] *)
Definition of_hex (hex : list ascii) : outcome Z :=
  let hex := Str.remove_sub (Str.to_list "urn:") hex in
  let hex := Str.remove_sub (Str.to_list "uuid:") hex in
  let hex := Str.strip (Str.to_list "{}") hex in
  let hex := Str.remove_sub (Str.to_list "-") hex in
  if negb (length hex =? 32)%nat
  then Raise (Exn ValueError "badly formed hexadecimal UUID string")
  else
    match Hex.parse hex with
    | None =>
        Raise (Exn ValueError "invalid literal for int() with base 16")
    | Some n =>
        if (0 <=? n) && (n <? Z.shiftl 1 128) then Return n
        else Raise (Exn ValueError
                      "int is out of range (need a 128-bit value)")
    end.

(** [u.hex] *)
Definition hex (n : Z) : string := Str.of_list (Hex.format_032x n).

End UUID.

(** ** class [Util] *)

Module Util.

(** [uuid.UUID(str(uuid.uuid4())).hex], given the random bytes. *)
Definition id_of_random (r : Z) : outcome string :=
  n ← UUID.of_hex (UUID.to_str (UUID.uuid4 r));
  Return (UUID.hex n).

Definition get_id : M string :=
  r ← Env.urandom16; lift (id_of_random r).

End Util.

(** ** The instances of [Service], [Logger], [Action] *)

Record Service : Type := MkService {
  svc_parms : val;
  svc_sysparms : val;
  svc_config : val;
  svc_env : val;
  svc_pid : handle;
  svc_handler : handle;
  svc_lhandler : handle;
}.

Record Logger : Type := MkLogger {
  lg_sid : val;
  lg_service : option Service;
}.

(** [Logger(sid="", service=None)] *)
Definition Logger_init (sid : option val) (service : option Service)
  : Logger :=
  MkLogger (default (VStr "") sid) service.

(** [self.logger] of a service: [Logger(service=self)]. *)
Definition svc_logger (self : Service) : Logger :=
  Logger_init None (Some self).

Record Action : Type := MkAction {
  act_msg : val;
  act_parms : val;
  act_sysparms : val;
  act_extra : val;
  (** [None]: the attribute [provider] does not exist *)
  act_provider : option val;
  act_logger : Logger;
}.

Record Endpoint : Type := MkEndpoint {
  ep_action : Action;
  ep_path_params : val;
  ep_query_params : val;
}.

(** What a subclass overrides. *)
Record ActionClass : Type := { action : Action -> M val }.

Record ServiceClass : Type := {
  initialize : Service -> M unit;
  handle_message : Service -> val -> Logger -> M val;
}.

(** ** class [Service]: the host side ([__send__], [__log__]) *)

Definition Service_send (self : Service) (msg : term) : M unit :=
  Env.cast (svc_pid self) msg.

Definition Service_log (self : Service) (level : term) (msg : val)
  : M unit :=
  Env.cast (svc_lhandler self)
    (Tuple [Atom "log"; Tuple [level; Obj msg]]).

(** ** class [Logger] *)

Module Logger.

Definition log (self : Logger) (level : string) (message : val)
  : M unit :=
  match lg_service self with
  | Some service => Service_log service (Atom level) message
  | None =>
      Env.call "Elixir.Amps.PyProcess" "log"
        [Atom level; Obj message;
         TermList [Tuple [Atom "sid"; Obj (lg_sid self)]]]
  end.

Definition info (self : Logger) (message : val) : M unit :=
  log self "info" message.
Definition debug (self : Logger) (message : val) : M unit :=
  log self "debug" message.
Definition warning (self : Logger) (message : val) : M unit :=
  log self "warning" message.
Definition error (self : Logger) (message : val) : M unit :=
  log self "error" message.

End Logger.




Section Bridge.

(** [json.loads]: the decoder is the standard library's and is taken
    as given; it returns a value or raises. *)
Variable json_loads : string -> outcome val.

(** ** class [Action] *)

(** [Action.__init__(self, msgdata)] *)
Definition Action_init (msgdata : string) : outcome Action :=
  msgdata ← json_loads msgdata;
  msg ← Py.subscript msgdata "msg";
  parms ← Py.subscript msgdata "parms";
  sysparms ← Py.subscript msgdata "sysparms";
  extra ← Py.subscript parms "parms";
  use_provider ← Py.subscript parms "use_provider";
  provider ←
    (if Py.truthy use_provider
     then p ← Py.subscript parms "provider"; Return (Some p)
     else Return None);
  sid ← Py.get_method msg "sid";
  logger ←
    (if Py.truthy sid
     then s ← Py.subscript msg "sid"; Return (Logger_init (Some s) None)
     else Return (Logger_init None None));
  Return (MkAction msg parms sysparms extra provider logger).

(** [Action.action(self)], the default callback. *)
Definition Action_action (self : Action) : M val :=
  mret (VDict (Py.dict_lit [("status", VStr "completed")])).

Definition Action_class : ActionClass := {| action := Action_action |}.

(** [Action.__run__(self)] *)
Definition Action_run (cls : ActionClass) (self : Action) : M string :=
  response ←
    try_except (action cls self)
      (fun e =>
         mret (VDict (Py.dict_lit [("error", VBool true);
                                   ("reason", VStr (exn_text e))])));
  lift (Json.dumps response).

(** [open(p).read()]: the text of the file a path names, taken as
    given; it returns the text or raises. *)
Variable open_read : val -> outcome val.

(** [Action.get_data(self)] *)
Definition Action_get_data (self : Action) : outcome val :=
  data ← Py.get_method (act_msg self) "data";
  if Py.truthy data then Py.subscript (act_msg self) "data"
  else fpath ← Py.subscript (act_msg self) "fpath"; open_read fpath.

(** [Action.send_async(status, key, data)] *)
Definition send_async (status : val) (key : string) (data : val) : val :=
  VDict (Py.dict_lit [("status", status);
                      ("async", VDict (Py.dict_lit [(key, data)]))]).

(** [Action.send_status(status, reason=None)] *)
Definition send_status (status : val) (reason : option val) : val :=
  let reason := default VNone reason in
  if Py.truthy reason
  then VDict (Py.dict_lit [("status", status); ("reason", reason)])
  else VDict (Py.dict_lit [("status", status)]).

(** [Action.send_file(status, fpath, meta={})] *)
Definition send_file (status : val) (fpath : string) (meta : dict)
  : M val :=
  let fname := Py.basename fpath in
  fsize ← Env.getsize (VStr fpath);
  let msg :=
    Py.dict_merge
      (Py.dict_lit [("fname", VStr fname); ("fsize", VInt fsize);
                    ("fpath", VStr fpath)])
      meta in
  mret (VDict (Py.dict_lit [("status", status); ("msg", VDict msg)])).

(** [Action.send_data(status, data, meta={})] *)
Definition send_data (status data : val) (meta : dict) : val :=
  let msg := Py.dict_merge (Py.dict_lit [("data", data)]) meta in
  VDict (Py.dict_lit [("status", status); ("msg", VDict msg)]).

(** [Action.send_error(reason)] *)
Definition send_error (reason : val) : val :=
  VDict (Py.dict_lit [("status", VStr "failed"); ("reason", reason)]).

(** ** class [Endpoint] *)

(** [Endpoint.__init__(self, msgdata)] *)
Definition Endpoint_init (msgdata : string) : outcome Endpoint :=
  self ← Action_init msgdata;
  path_params ← Py.get_method (act_msg self) "path_params";
  query_params ← Py.get_method (act_msg self) "query_params";
  Return (MkEndpoint self path_params query_params).


(** [Endpoint.send_resp_data(data, code)] *)
Definition send_resp_data (data code : val) : val :=
  VDict (Py.dict_lit
           [("status", VStr "completed");
            ("response", VDict (Py.dict_lit [("data", data); ("code", code)]))]).

(** [Endpoint.send_resp_file(fpath, code)] *)
Definition send_resp_file (fpath code : val) : val :=
  VDict (Py.dict_lit
           [("status", VStr "completed");
            ("response", VDict (Py.dict_lit [("fpath", fpath); ("code", code)]))]).

(** ** class [Service] *)

(** [Service.initialize(self)] and [Service.handle_message(self, msg,
    logger)], the default callbacks. *)
Definition Service_initialize (self : Service) : M unit := mret tt.

Definition Service_handle_message
  (self : Service) (msg : val) (logger : Logger) : M val :=
  mret (VStr "completed").

(** [Service.__init__(self, parms, sysparms, pid, env, handler,
    lhandler)] *)
Definition Service_init (cls : ServiceClass)
  (parms sysparms : string) (pid : handle) (env : val)
  (handler lhandler : handle) : M Service :=
  parms ← lift (json_loads parms);
  sysparms ← lift (json_loads sysparms);
  config ← lift (Py.subscript parms "config");
  let self := MkService parms sysparms config env pid handler lhandler in
  _ ← initialize cls self;
  mret self.


(** [Service.send_message(self, msg, newmsg)]: [msg] and [newmsg]
    refer to the caller's dict objects. *)
Definition Service_send_message (self : Service) (msg newmsg : loc)
  : M string :=
  msgid ← Util.get_id;
  parent ← Env.getitem msg "msgid";
  _ ← Env.setitem newmsg "parent" parent;
  _ ← Env.setitem newmsg "msgid" (VStr msgid);
  has_data ← Env.contains newmsg "data";
  _ ← (if (has_data : bool) then
         _ ← Env.delitem msg "fpath";
         data ← Env.getitem newmsg "data";
         n ← lift (Py.len data);
         Env.setitem newmsg "fsize" (VInt n)
       else
         has_fpath ← Env.contains newmsg "fpath";
         if (has_fpath : bool) then
           _ ← Env.delitem msg "data";
           fpath ← Env.getitem newmsg "fpath";
           n ← Env.getsize fpath;
           Env.setitem newmsg "fsize" (VInt n)
         else mret tt);
  m ← Env.load msg;
  n ← Env.load newmsg;
  merged ← lift (Json.dumps (VDict (Py.dict_merge m n)));
  parms ← lift (Json.dumps (svc_parms self));
  _ ← Env.call "Elixir.Amps.PyProcess" "send_message"
        [Obj (VStr merged); Obj (VStr parms); Obj (svc_env self)];
  mret msgid.

(** [Service.send_new(self, newmsg)].  Its two [print] calls write
    to the standard output only and are left out. *)
Definition Service_send_new (self : Service) (newmsg : loc) : M string :=
  msgid ← Util.get_id;
  _ ← Env.setitem newmsg "msgid" (VStr msgid);
  has_data ← Env.contains newmsg "data";
  _ ← (if (has_data : bool) then
         data ← Env.getitem newmsg "data";
         n ← lift (Py.len data);
         Env.setitem newmsg "fsize" (VInt n)
       else
         fpath ← Env.getitem newmsg "fpath";
         n ← Env.getsize fpath;
         Env.setitem newmsg "fsize" (VInt n));
  n ← Env.load newmsg;
  encoded ← lift (Json.dumps (VDict n));
  _ ← Env.cast (svc_handler self) (Tuple [Atom "new"; Obj (VStr encoded)]);
  mret msgid.

End Bridge.

(** ** Vocabulary of the statements *)

Definition lower_hex (c : ascii) : Prop := Hex.is_lower_hex c = true.

Definition hex_or_dash (c : ascii) : Prop := lower_hex c \/ c = "-"%char.

(** What the payload branch of [send_message] does to the dict objects:
    [payload_step fs msg newmsg h h'] relates the objects before and
    after the [if "data" in newmsg: ... elif "fpath" in newmsg: ...]
    statement when it raises nothing. *)
Inductive payload_step (fs : gmap string Z) (msg newmsg : loc)
  (h : gmap loc dict) : gmap loc dict -> Prop :=
| payload_data data n :
    Py.dict_has "data" (h !!! newmsg) = true ->
    Py.dict_has "fpath" (h !!! msg) = true ->
    let h1 := <[msg := Py.dict_remove "fpath" (h !!! msg)]> h in
    Py.dict_get "data" (h1 !!! newmsg) = Some data ->
    Py.len data = Return n ->
    payload_step fs msg newmsg h
      (<[newmsg := Py.dict_set "fsize" (VInt n) (h1 !!! newmsg)]> h1)
| payload_fpath path n :
    Py.dict_has "data" (h !!! newmsg) = false ->
    Py.dict_has "fpath" (h !!! newmsg) = true ->
    Py.dict_has "data" (h !!! msg) = true ->
    let h1 := <[msg := Py.dict_remove "data" (h !!! msg)]> h in
    Py.dict_get "fpath" (h1 !!! newmsg) = Some (VStr path) ->
    fs !! path = Some n ->
    payload_step fs msg newmsg h
      (<[newmsg := Py.dict_set "fsize" (VInt n) (h1 !!! newmsg)]> h1)
| payload_none :
    Py.dict_has "data" (h !!! newmsg) = false ->
    Py.dict_has "fpath" (h !!! newmsg) = false ->
    payload_step fs msg newmsg h h.

Definition send_message_call (self : Service) (merged parms : string)
  : host_op :=
  Call "Elixir.Amps.PyProcess" "send_message"
    [Obj (VStr merged); Obj (VStr parms); Obj (svc_env self)].


(** The text [json.dumps] gives for [{"error": True, "reason": r}]. *)
Definition error_result_text (reason : string) : string :=
  "{" +:+ Json.quote "error" +:+ ": true, " +:+ Json.quote "reason"
      +:+ ": " +:+ Json.quote reason +:+ "}".


(** The host operation [Logger.log] issues. *)
Definition log_op (self : Logger) (level : string) (message : val)
  : host_op :=
  match lg_service self with
  | Some service =>
      Cast (svc_lhandler service)
        (Tuple [Atom "log"; Tuple [Atom level; Obj message]])
  | None =>
      Call "Elixir.Amps.PyProcess" "log"
        [Atom level; Obj message;
         TermList [Tuple [Atom "sid"; Obj (lg_sid self)]]]
  end.

(** ** What a computation leaves alone *)

(** [quiet L w w']: from [w] to [w'] nothing has changed but the dict
    objects of [L]. *)
Definition quiet (L : list loc) (w w' : world) : Prop :=
  w_fs w' = w_fs w /\ w_entropy w' = w_entropy w /\
  w_drawn w' = w_drawn w /\ w_host w' = w_host w /\
  w_trace w' = w_trace w /\
  forall l, l ∉ L -> w_heap w' !! l = w_heap w !! l.

(** A computation that, whatever it returns or raises, changes the
    dict objects of [L] only. *)
Definition quietly {A} (L : list loc) (m : M A) : Prop :=
  forall w, quiet L w (snd (m w)).

(** [dispatches L P w r]: the run [r] from [w] has changed the dict
    objects of [L] only and has issued at most one host operation, one
    that satisfies [P]; if it raised after issuing it, the exception is
    the transport's. *)
Definition dispatches {A} (L : list loc) (P : host_op -> Prop)
  (w : world) (r : outcome A * world) : Prop :=
  w_fs (snd r) = w_fs w /\ w_drawn (snd r) = w_drawn w /\
  (forall l, l ∉ L -> w_heap (snd r) !! l = w_heap w !! l) /\
  (w_trace (snd r) = w_trace w \/
   exists op, P op /\ w_trace (snd r) = w_trace w ++ [op] /\
     forall e, fst r = Raise e -> w_host w (w_trace (snd r)) = Some e).

(** A service class that overrides nothing. *)
Definition Service_class : ServiceClass :=
  {| initialize := Service_initialize;
     handle_message := Service_handle_message |}.


(** The values [json.dumps] encodes: at any depth, anything but an
    object of another type. *)
Fixpoint serializable (v : val) : bool :=
  match v with
  | VOpaque _ => false
  | VList l => forallb serializable l
  | VDict d => forallb (fun p => serializable (snd p)) d
  | _ => true
  end.

(** The [k] least significant hexadecimal digits of [n], the most
    significant first. *)
Fixpoint fixed_hex (k : nat) (n : Z) : list ascii :=
  match k with
  | O => []
  | S k' => fixed_hex k' (n / 16) ++ [Hex.digit (n mod 16)]
  end.

(** ** Concrete runs *)

Module Scenario.

(** A JSON text with each double quote shown as a single quote. *)
Definition show (s : string) : string :=
  Str.of_list
    (map (fun c => if Ascii.eqb c Str.dq then Str.sq else c) (Str.to_list s)).

(** The text of a JSON document. *)
Definition text_of (v : val) : string :=
  match Json.dumps v with
  | Return t => t
  | Raise _ => ""
  end.

(** [json.loads] on the texts of the documents [docs], where it is the
    inverse of [json.dumps]; any other text is refused. *)
Definition decoder (docs : list val) (s : string) : outcome val :=
  match List.find (fun v => String.eqb (text_of v) s) docs with
  | Some v => Return v
  | None => Raise (Exn ValueError "Expecting value: line 1 column 1 (char 0)")
  end.

(** A transport that delivers everything, and one whose port is closed. *)
Definition quiet_host : list host_op -> option exn := fun _ => None.
Definition closed_port : list host_op -> option exn :=
  fun _ => Some (Exn OSError "port closed").

Definition service : Service :=
  MkService (VDict [("name", VStr "relay"); ("config", VDict [])])
    (VDict [("tempdir", VStr "/tmp")]) (VDict []) (VStr "default") 1 2 3.

(** Nothing on the heap, nothing on disk. *)
Definition idle : world := World ∅ ∅ (fun _ => 0) 0 quiet_host [].
Definition offline : world := World ∅ ∅ (fun _ => 0) 0 closed_port [].

(** An original envelope at 0 and an overlay at 1; [/x] holds three
    bytes, [/tmp/out.txt] forty-two; every random draw is 7. *)
Definition exchange (original overlay : dict) : world :=
  World {[ 0%nat := original; 1%nat := overlay ]}
    {[ "/x" := 3; "/tmp/out.txt" := 42 ]} (fun _ => 7) 0 quiet_host [].

(** The identifier made from the draw 7. *)
Definition derived_id : string := "00000000000040008000000000000007".

(** Original [{"msgid": "A", "fpath": "/x"}], overlay
    [{"data": "hello"}]. *)
Definition derived : world :=
  exchange [("msgid", VStr "A"); ("fpath", VStr "/x")]
    [("data", VStr "hello")].

(** Original [{"msgid": "A", "data": "old"}], overlay
    [{"fpath": "/x"}]. *)
Definition converted : world :=
  exchange [("msgid", VStr "A"); ("data", VStr "old")]
    [("fpath", VStr "/x")].

(** Two originals (0 and 2) and two overlays (1 and 3). *)
Definition replay : world :=
  World {[ 0%nat := [("msgid", VStr "A"); ("fpath", VStr "/x")];
           1%nat := [("data", VStr "one")];
           2%nat := [("msgid", VStr "B"); ("fpath", VStr "/x")];
           3%nat := [("data", VStr "two")] ]}
    {[ "/x" := 3 ]} (fun _ => 7) 0 quiet_host [].



(** The documents the host sends. *)
Definition request : val :=
  VDict [("msg", VDict [("msgid", VStr "A"); ("sid", VStr "s1")]);
         ("parms", VDict [("parms", VDict []);
                          ("use_provider", VBool true);
                          ("provider", VDict [("name", VStr "s3")])]);
         ("sysparms", VDict [("tempdir", VStr "/tmp")])].

Definition request_without_flag : val :=
  VDict [("msg", VDict [("msgid", VStr "A"); ("sid", VStr "s1")]);
         ("parms", VDict [("parms", VDict [])]);
         ("sysparms", VDict [("tempdir", VStr "/tmp")])].


Definition act : Action :=
  MkAction (VDict [("msgid", VStr "A")]) (VDict []) (VDict []) (VDict [])
    None (Logger_init None None).

(** An original without [msgid]. *)
Definition orphan : world :=
  exchange [("fpath", VStr "/x")] [("data", VStr "hello")].

(** An inline original given new inline data. *)
Definition inline_twice : world :=
  exchange [("msgid", VStr "A"); ("data", VStr "old")]
    [("data", VStr "new")].

(** An overlay whose [data] is [None]. *)
Definition unsized : world :=
  exchange [("msgid", VStr "A"); ("fpath", VStr "/x")] [("data", VNone)].

(** An envelope with neither [data] nor [fpath]. *)
Definition bare : world := exchange [("note", VStr "x")] [].

(** A callback that returns a Python [set]. *)
Definition returning_set : ActionClass :=
  {| action := fun _ => mret (VOpaque "set") |}.


(** The documents a service is constructed from. *)
Definition service_parms : val :=
  VDict [("name", VStr "relay"); ("config", VDict [])].
Definition service_sysparms : val := VDict [("tempdir", VStr "/tmp")].

(** A file system with the one file [/x], whose text is [abc]. *)
Definition reader (p : val) : outcome val :=
  match p with
  | VStr "/x" => Return (VStr "abc")
  | _ => Raise (Exn OSError "[Errno 2] No such file or directory")
  end.

(** An action whose message has empty inline data and no file. *)
Definition inline_empty : Action :=
  MkAction (VDict [("msgid", VStr "A"); ("data", VStr "")]) (VDict [])
    (VDict []) (VDict []) None (Logger_init None None).

End Scenario.

(** * Proofs *)

(** ** Hexadecimal text *)

Section HexFacts.


Lemma digit_lower_hex d : 0 <= d < 16 -> lower_hex (Hex.digit d).
Proof.
  intros [Hlo Hhi]. destruct d as [|p|p]; [reflexivity| |lia].
  repeat (match goal with q : positive |- _ => destruct q; try lia end);
    reflexivity.
Qed.

Lemma digit_val_digit d : 0 <= d < 16 -> Hex.digit_val (Hex.digit d) = Some d.
Proof.
  intros [Hlo Hhi]. destruct d as [|p|p]; [reflexivity| |lia].
  repeat (match goal with q : positive |- _ => destruct q; try lia end);
    reflexivity.
Qed.

Lemma format_aux_hex fuel : forall n acc,
  Forall lower_hex acc -> Forall lower_hex (Hex.format_aux fuel n acc).
Proof.
  induction fuel as [|fuel IH]; intros n acc Hacc; simpl; [done|].
  assert (Hd : lower_hex (Hex.digit (n mod 16))).
  { apply digit_lower_hex, Z.mod_pos_bound. lia. }
  destruct (n / 16 =? 0); [|apply IH]; by constructor.
Qed.

Lemma format_aux_length fuel : forall (k : nat) n acc,
  (1 <= k)%nat -> 0 <= n < 16 ^ Z.of_nat k ->
  (length (Hex.format_aux fuel n acc) <= length acc + k)%nat.
Proof.
  induction fuel as [|fuel IH]; intros k n acc Hk Hn; simpl; [lia|].
  destruct (n / 16 =? 0) eqn:Hq; simpl; [lia|].
  apply Z.eqb_neq in Hq.
  destruct k as [|k]; [lia|].
  assert (Hdiv : 0 <= n / 16 < 16 ^ Z.of_nat k).
  { split; [apply Z.div_pos; lia|].
    apply Z.div_lt_upper_bound; [lia|].
    rewrite Nat2Z.inj_succ, Z.pow_succ_r in Hn; lia. }
  destruct k as [|k].
  { simpl in Hdiv. lia. }
  specialize (IH (S k) (n / 16) (Hex.digit (n mod 16) :: acc)).
  simpl in IH. specialize (IH ltac:(lia) Hdiv). lia.
Qed.

Lemma parse_format_aux fuel : forall n acc,
  0 <= n < 16 ^ Z.of_nat fuel ->
  fold_left Hex.parse_step (Hex.format_aux fuel n acc) (Some 0)
  = fold_left Hex.parse_step acc (Some n).
Proof.
  induction fuel as [|fuel IH]; intros n acc Hn; cbn [Hex.format_aux].
  { simpl in Hn. by replace n with 0 by lia. }
  assert (Hmod : 0 <= n mod 16 < 16) by (apply Z.mod_pos_bound; lia).
  assert (Hstep : forall v, 16 * v + n mod 16 = n -> 
            Hex.parse_step (Some v) (Hex.digit (n mod 16)) = Some n).
  { intros v Hv. unfold Hex.parse_step. rewrite digit_val_digit by done.
    by rewrite Hv. }
  destruct (n / 16 =? 0) eqn:Hq.
  - apply Z.eqb_eq in Hq. cbn [fold_left]. rewrite Hstep; [done|].
    pose proof (Z.div_mod n 16 ltac:(lia)). lia.
  - rewrite IH.
    + cbn [fold_left]. rewrite Hstep; [done|].
      pose proof (Z.div_mod n 16 ltac:(lia)). lia.
    + split; [apply Z.div_pos; lia|].
      apply Z.div_lt_upper_bound; [lia|].
      rewrite Nat2Z.inj_succ, Z.pow_succ_r in Hn; lia.
Qed.

Lemma format_x_fuel n : 0 <= n -> n < 16 ^ Z.of_nat (S (Z.to_nat (Z.log2 n))).
Proof.
  intros Hn. rewrite Nat2Z.inj_succ, Z2Nat.id by apply Z.log2_nonneg.
  destruct (Z.eq_dec n 0) as [->|Hne]; [reflexivity|].
  pose proof (Z.log2_spec n ltac:(lia)) as [_ Hup].
  eapply Z.lt_le_trans; [exact Hup|].
  pose proof (Z.log2_nonneg n).
  replace 16 with (2 ^ 4) by reflexivity.
  rewrite <- Z.pow_mul_r by lia.
  apply Z.pow_le_mono_r; lia.
Qed.

Lemma format_x_hex n : Forall lower_hex (Hex.format_x n).
Proof. apply format_aux_hex. constructor. Qed.

Lemma format_aux_nonempty fuel : forall n acc,
  acc <> [] -> Hex.format_aux fuel n acc <> [].
Proof.
  induction fuel as [|fuel IH]; intros n acc Hacc; simpl; [done|].
  destruct (n / 16 =? 0); [done|by apply IH].
Qed.

Lemma format_x_nonempty n : Hex.format_x n <> [].
Proof.
  unfold Hex.format_x. simpl.
  destruct (n / 16 =? 0); [done|by apply format_aux_nonempty].
Qed.

Lemma format_032x_length n :
  0 <= n < 2 ^ 128 -> length (Hex.format_032x n) = 32%nat.
Proof.
  intros Hn. unfold Hex.format_032x, Hex.zfill.
  rewrite length_app, length_replicate.
  pose proof (format_aux_length (S (Z.to_nat (Z.log2 n))) 32 n []
                ltac:(lia) ltac:(simpl; lia)) as Hlen.
  fold (Hex.format_x n) in Hlen. simpl in Hlen. lia.
Qed.

Lemma format_032x_hex n : Forall lower_hex (Hex.format_032x n).
Proof.
  unfold Hex.format_032x, Hex.zfill. apply Forall_app. split.
  - apply Forall_replicate. reflexivity.
  - apply format_x_hex.
Qed.

Lemma parse_zeros k l :
  fold_left Hex.parse_step (replicate k "0"%char ++ l) (Some 0)
  = fold_left Hex.parse_step l (Some 0).
Proof. induction k as [|k IH]; simpl; [done|exact IH]. Qed.

Lemma parse_format_032x n :
  0 <= n -> Hex.parse (Hex.format_032x n) = Some n.
Proof.
  intros Hn. unfold Hex.parse.
  destruct (Hex.format_032x n) eqn:Hf.
  { exfalso. unfold Hex.format_032x, Hex.zfill in Hf.
    apply app_eq_nil in Hf as [_ Hf]. by apply format_x_nonempty in Hf. }
  rewrite <- Hf. unfold Hex.format_032x, Hex.zfill.
  rewrite parse_zeros. unfold Hex.format_x.
  rewrite parse_format_aux; [done|].
  split; [done|]. by apply format_x_fuel.
Qed.

Lemma format_032x_inj n m :
  0 <= n -> 0 <= m -> Hex.format_032x n = Hex.format_032x m -> n = m.
Proof.
  intros Hn Hm Heq.
  pose proof (parse_format_032x n Hn) as H1.
  rewrite Heq, parse_format_032x in H1 by done. congruence.
Qed.

End HexFacts.

(** ** Strings *)

Section StrFacts.

Lemma to_list_of_list l : Str.to_list (Str.of_list l) = l.
Proof. apply String.list_ascii_of_string_of_list_ascii. Qed.

Lemma of_list_to_list s : Str.of_list (Str.to_list s) = s.
Proof. apply String.string_of_list_ascii_of_string. Qed.

Lemma length_of_list l : String.length (Str.of_list l) = length l.
Proof. induction l as [|c l IH]; simpl; [done|by rewrite IH]. Qed.

Lemma of_list_inj l1 l2 : Str.of_list l1 = Str.of_list l2 -> l1 = l2.
Proof.
  intros H. rewrite <- (to_list_of_list l1), <- (to_list_of_list l2).
  by rewrite H.
Qed.

(** A pattern whose first character does not occur is never found. *)
Lemma remove_sub_absent c pat s :
  Forall (fun x => x <> c) s -> Str.remove_sub (c :: pat) s = s.
Proof.
  unfold Str.remove_sub.
  induction 1 as [|x s Hx _ IH]; [done|].
  cbn [Str.remove_sub_aux Str.starts_with].
  destruct (Ascii.eqb_spec c x) as [Heq|_]; [congruence|].
  cbn [andb]. by rewrite IH.
Qed.

Lemma lstrip_absent chars s :
  Forall (fun x => x ∉ chars) s -> Str.lstrip chars s = s.
Proof.
  destruct 1 as [|x s Hx _]; simpl; [done|].
  by rewrite bool_decide_eq_false_2.
Qed.

Lemma strip_absent chars s :
  Forall (fun x => x ∉ chars) s -> Str.strip chars s = s.
Proof.
  intros H. unfold Str.strip, Str.rstrip.
  rewrite (lstrip_absent chars s) by done.
  rewrite lstrip_absent; [apply rev_involutive|].
  by apply List.Forall_rev.
Qed.

(** Removing the dashes leaves a dash-free prefix in place... *)
Lemma remove_dash_app a rest :
  Forall (fun x => x <> "-"%char) a ->
  Str.remove_sub ["-"%char] (a ++ rest)
  = a ++ Str.remove_sub ["-"%char] rest.
Proof.
  unfold Str.remove_sub.
  induction 1 as [|x a Hx _ IH]; [done|].
  cbn [app Str.remove_sub_aux Str.starts_with].
  destruct (Ascii.eqb_spec "-" x) as [Heq|_]; [congruence|].
  cbn [andb]. by rewrite IH.
Qed.

(** ... and drops a dash. *)
Lemma remove_dash_cons rest :
  Str.remove_sub ["-"%char] ("-"%char :: rest)
  = Str.remove_sub ["-"%char] rest.
Proof. reflexivity. Qed.

Lemma remove_dash_absent a :
  Forall (fun x => x <> "-"%char) a -> Str.remove_sub ["-"%char] a = a.
Proof.
  intros H. rewrite <- (app_nil_r a) at 1.
  rewrite remove_dash_app by done. simpl. apply app_nil_r.
Qed.

End StrFacts.

(** ** Identifiers *)

Section UuidFacts.

Lemma testbit_above a i :
  0 <= a < 2 ^ 128 -> 128 <= i -> Z.testbit a i = false.
Proof.
  intros [Hlo Hhi] Hi.
  destruct (Z.eq_dec a 0) as [->|Hne]; [apply Z.bits_0|].
  apply Z.bits_above_log2; [done|].
  assert (Z.log2 a < 128) by (apply Z.log2_lt_pow2; lia). lia.
Qed.

Lemma below_of_testbit a :
  0 <= a -> (forall i, 128 <= i -> Z.testbit a i = false) -> a < 2 ^ 128.
Proof.
  intros Ha Hbits.
  assert (Heq : Z.land a (Z.ones 128) = a).
  { apply Z.bits_inj'. intros i Hi. rewrite Z.land_spec.
    destruct (Z_lt_le_dec i 128).
    - rewrite Z.ones_spec_low by lia. apply andb_true_r.
    - rewrite Hbits by done. reflexivity. }
  rewrite Z.land_ones in Heq by lia.
  rewrite <- Heq. apply Z.mod_pos_bound. lia.
Qed.

Lemma set_version_range r :
  0 <= r < 2 ^ 128 -> 0 <= UUID.set_version 4 r < 2 ^ 128.
Proof.
  intros Hr. unfold UUID.set_version.
  change (Z.shiftl 0xc000 48) with 0xc000000000000000.
  change (Z.shiftl 0x8000 48) with 0x8000000000000000.
  change (Z.shiftl 0xf000 64) with 0xf0000000000000000000.
  change (Z.shiftl 4 76) with 0x40000000000000000000.
  assert (Hnn : 0 <= Z.lor (Z.land (Z.lor (Z.land r
                  (Z.lnot 0xc000000000000000)) 0x8000000000000000)
                  (Z.lnot 0xf0000000000000000000)) 0x40000000000000000000).
  { apply Z.lor_nonneg. split; [|lia].
    apply Z.land_nonneg. left.
    apply Z.lor_nonneg. split; [|lia].
    apply Z.land_nonneg. left. lia. }
  split; [done|].
  apply below_of_testbit; [done|].
  intros i Hi.
  rewrite Z.lor_spec, Z.land_spec, Z.lor_spec, Z.land_spec.
  rewrite (testbit_above r) by done.
  rewrite (testbit_above 0x8000000000000000) by (done || lia).
  rewrite (testbit_above 0x40000000000000000000) by (done || lia).
  reflexivity.
Qed.


Lemma lower_hex_not c x :
  Hex.is_lower_hex x = false -> lower_hex c -> c <> x.
Proof. intros Hx Hc ->. unfold lower_hex in Hc. congruence. Qed.

Lemma hex_or_dash_not c x :
  Hex.is_lower_hex x = false -> x <> "-"%char -> hex_or_dash c -> c <> x.
Proof.
  intros Hx Hd [Hc| ->]; [by eapply lower_hex_not|]. congruence.
Qed.

Lemma to_str_chars n : Forall hex_or_dash (UUID.to_str n).
Proof.
  pose proof (format_032x_hex n) as Hh.
  assert (Hsub : forall l, Forall lower_hex l -> Forall hex_or_dash l).
  { intros l Hl. eapply Forall_impl; [exact Hl|]. by left. }
  unfold UUID.to_str, UUID.slice.
  repeat first
    [ apply Forall_app; split
    | apply Forall_cons; split; [by right|]
    | apply Hsub; first [apply Forall_take | idtac];
      first [apply Forall_drop | idtac]; exact Hh ].
Qed.

Lemma slices_join (h : list ascii) :
  UUID.slice 0 8 h ++ UUID.slice 8 12 h ++ UUID.slice 12 16 h
    ++ UUID.slice 16 20 h ++ drop 20 h = h.
Proof.
  unfold UUID.slice. cbn [Nat.sub drop].
  change 20%nat with (16 + 4)%nat. rewrite <- drop_drop, take_drop.
  change 16%nat with (12 + 4)%nat. rewrite <- drop_drop, take_drop.
  change 12%nat with (8 + 4)%nat. rewrite <- drop_drop, take_drop.
  apply take_drop.
Qed.

Lemma to_str_undashed n :
  Str.remove_sub ["-"%char] (UUID.to_str n) = Hex.format_032x n.
Proof.
  pose proof (format_032x_hex n) as Hh.
  assert (Hnd : forall l, Forall lower_hex l ->
                          Forall (fun x => x <> "-"%char) l).
  { intros l Hl. eapply Forall_impl; [exact Hl|].
    intros c. by apply lower_hex_not. }
  unfold UUID.to_str.
  repeat (rewrite remove_dash_app
            by (apply Hnd; unfold UUID.slice;
                first [apply Forall_take | idtac];
                first [apply Forall_drop | idtac]; exact Hh);
          rewrite remove_dash_cons).
  rewrite remove_dash_absent by (apply Hnd, Forall_drop, Hh).
  apply slices_join.
Qed.

Lemma of_hex_to_str n :
  0 <= n < 2 ^ 128 -> UUID.of_hex (UUID.to_str n) = Return n.
Proof.
  intros Hn. unfold UUID.of_hex.
  pose proof (to_str_chars n) as Hc.
  unfold Str.to_list. cbn [String.list_ascii_of_string].
  rewrite (remove_sub_absent "u"%char _ (UUID.to_str n))
    by (eapply Forall_impl; [exact Hc|];
        intros c; by apply hex_or_dash_not).
  rewrite (remove_sub_absent "u"%char _ (UUID.to_str n))
    by (eapply Forall_impl; [exact Hc|];
        intros c; by apply hex_or_dash_not).
  rewrite strip_absent.
  2:{ eapply Forall_impl; [exact Hc|]. intros c Hhd Hin.
      apply elem_of_cons in Hin as [->|Hin].
      { by eapply hex_or_dash_not in Hhd. }
      apply elem_of_cons in Hin as [->|Hin].
      { by eapply hex_or_dash_not in Hhd. }
      by apply not_elem_of_nil in Hin. }
  rewrite to_str_undashed, format_032x_length by done.
  simpl. rewrite parse_format_032x by lia.
  change (Z.shiftl 1 128) with (2 ^ 128).
  destruct (Z.leb_spec 0 n); [|lia].
  destruct (Z.ltb_spec n (2 ^ 128)); [done|lia].
Qed.

(** The identifier is the 32-digit form of the version-4 integer. *)
Lemma id_of_random_eq r :
  0 <= r < 2 ^ 128 ->
  Util.id_of_random r = Return (UUID.hex (UUID.uuid4 r)).
Proof.
  intros Hr. unfold Util.id_of_random.
  rewrite of_hex_to_str by (by apply set_version_range).
  reflexivity.
Qed.

Lemma urandom16_range w : 0 <= w_entropy w (w_drawn w) mod 2 ^ 128 < 2 ^ 128.
Proof. apply Z.mod_pos_bound. lia. Qed.

End UuidFacts.

(** ** Dictionaries *)

Section DictFacts.

Implicit Types (k : string) (v : val) (d : dict).

Lemma dict_has_true k d :
  Py.dict_has k d = true <-> exists v, Py.dict_get k d = Some v.
Proof.
  unfold Py.dict_has. destruct (Py.dict_get k d); split;
    first [by eauto | by intros [? ?] | done].
Qed.

Lemma dict_has_false k d :
  Py.dict_has k d = false <-> Py.dict_get k d = None.
Proof. unfold Py.dict_has. by destruct (Py.dict_get k d). Qed.

Lemma dict_get_app k d1 d2 :
  Py.dict_get k (d1 ++ d2)
  = match Py.dict_get k d2 with
    | Some w => Some w
    | None => Py.dict_get k d1
    end.
Proof.
  induction d1 as [|[k' v'] d1 IH]; simpl.
  - by destruct (Py.dict_get k d2).
  - rewrite IH. by destruct (Py.dict_get k d2).
Qed.

Lemma dict_get_replace_eq k v d :
  Py.dict_get k
    (map (fun p => if String.eqb (fst p) k then (k, v) else p) d)
  = match Py.dict_get k d with Some _ => Some v | None => None end.
Proof.
  induction d as [|[k' v'] d IH]; [done|].
  cbn [map fst]. destruct (String.eqb_spec k' k) as [->|Hne];
    cbn [Py.dict_get]; rewrite IH; destruct (Py.dict_get k d); try done.
  - by rewrite String.eqb_refl.
  - by destruct (String.eqb_spec k' k).
Qed.

Lemma dict_get_replace_ne k k' v d :
  k <> k' ->
  Py.dict_get k'
    (map (fun p => if String.eqb (fst p) k then (k, v) else p) d)
  = Py.dict_get k' d.
Proof.
  intros Hne. induction d as [|[k0 v0] d IH]; [done|].
  cbn [map fst]. destruct (String.eqb_spec k0 k) as [->|Hne0];
    cbn [Py.dict_get]; rewrite IH; destruct (Py.dict_get k' d); try done.
  by destruct (String.eqb_spec k k').
Qed.

Lemma dict_get_set_eq k v d : Py.dict_get k (Py.dict_set k v d) = Some v.
Proof.
  unfold Py.dict_set. destruct (Py.dict_has k d) eqn:Hhas.
  - rewrite dict_get_replace_eq.
    apply dict_has_true in Hhas as [w ->]. done.
  - rewrite dict_get_app. simpl. by rewrite String.eqb_refl.
Qed.

Lemma dict_get_set_ne k k' v d :
  k <> k' -> Py.dict_get k' (Py.dict_set k v d) = Py.dict_get k' d.
Proof.
  intros Hne. unfold Py.dict_set. destruct (Py.dict_has k d).
  - by apply dict_get_replace_ne.
  - rewrite dict_get_app. simpl.
    by destruct (String.eqb_spec k k').
Qed.

Lemma dict_get_set k k' v d :
  Py.dict_get k' (Py.dict_set k v d)
  = if String.eqb k k' then Some v else Py.dict_get k' d.
Proof.
  destruct (String.eqb_spec k k') as [->|Hne].
  - apply dict_get_set_eq.
  - by apply dict_get_set_ne.
Qed.

Lemma dict_get_remove k k' d :
  Py.dict_get k' (Py.dict_remove k d)
  = if String.eqb k k' then None else Py.dict_get k' d.
Proof.
  induction d as [|[k0 v0] d IH]; simpl.
  - by destruct (String.eqb k k').
  - destruct (String.eqb_spec k0 k) as [->|Hne0]; simpl.
    + rewrite IH. destruct (String.eqb_spec k k') as [->|Hne]; [done|].
      destruct (Py.dict_get k' d); [done|].
      by destruct (String.eqb_spec k k').
    + rewrite IH. destruct (String.eqb_spec k k') as [->|Hne]; [|done].
      by destruct (String.eqb_spec k0 k').
Qed.

Lemma dict_get_merge k d1 d2 :
  Py.dict_get k (Py.dict_merge d1 d2)
  = match Py.dict_get k d2 with
    | Some w => Some w
    | None => Py.dict_get k d1
    end.
Proof.
  unfold Py.dict_merge. revert d1.
  induction d2 as [|[k' v'] d2 IH]; intros d1; simpl; [done|].
  rewrite IH. destruct (Py.dict_get k d2); [done|].
  rewrite dict_get_set. by destruct (String.eqb k' k).
Qed.

Lemma dict_has_set k k' v d :
  Py.dict_has k' (Py.dict_set k v d)
  = if String.eqb k k' then true else Py.dict_has k' d.
Proof.
  unfold Py.dict_has. rewrite dict_get_set.
  by destruct (String.eqb k k').
Qed.

Lemma dict_has_remove k k' d :
  Py.dict_has k' (Py.dict_remove k d)
  = if String.eqb k k' then false else Py.dict_has k' d.
Proof.
  unfold Py.dict_has. rewrite dict_get_remove.
  by destruct (String.eqb k k').
Qed.

Lemma dict_has_merge k d1 d2 :
  Py.dict_has k (Py.dict_merge d1 d2)
  = Py.dict_has k d2 || Py.dict_has k d1.
Proof.
  unfold Py.dict_has. rewrite dict_get_merge.
  by destruct (Py.dict_get k d2).
Qed.

End DictFacts.

(** ** Running computations *)

Section RunFacts.

Context {A B : Type}.

Lemma bind_return (m : M A) (f : A -> M B) w b w' :
  (m ≫= f) w = (Return b, w') <->
  exists a w1, m w = (Return a, w1) /\ f a w1 = (Return b, w').
Proof.
  unfold mbind, M_bind. split.
  - destruct (m w) as [[a|e] w1]; [eauto|done].
  - intros (a & w1 & -> & Hf). done.
Qed.

Lemma run_bind (m : M A) (f : A -> M B) w a w1 :
  m w = (Return a, w1) -> (m ≫= f) w = f a w1.
Proof. unfold mbind, M_bind. by intros ->. Qed.

Lemma run_bind_raise (m : M A) (f : A -> M B) w e w1 :
  m w = (Raise e, w1) -> (m ≫= f) w = (Raise e, w1).
Proof. unfold mbind, M_bind. by intros ->. Qed.

Lemma lift_return (o : outcome A) w a w1 :
  lift o w = (Return a, w1) <-> o = Return a /\ w1 = w.
Proof. unfold lift. split; [by intros [= -> ->]|by intros [-> ->]]. Qed.

End RunFacts.

Section EnvFacts.

Lemma load_run l w : Env.load l w = (Return (w_heap w !!! l), w).
Proof. reflexivity. Qed.

Lemma contains_run l k w :
  Env.contains l k w = (Return (Py.dict_has k (w_heap w !!! l)), w).
Proof. reflexivity. Qed.

Lemma setitem_run l k v w :
  Env.setitem l k v w
  = (Return tt,
     set_heap (<[l := Py.dict_set k v (w_heap w !!! l)]> (w_heap w)) w).
Proof. reflexivity. Qed.

Lemma getitem_return l k w v w1 :
  Env.getitem l k w = (Return v, w1) <->
  Py.dict_get k (w_heap w !!! l) = Some v /\ w1 = w.
Proof.
  unfold Env.getitem. rewrite (run_bind _ _ _ _ _ (load_run l w)).
  rewrite lift_return. simpl.
  destruct (Py.dict_get k (w_heap w !!! l)); unfold Py.key_error;
    split; first [by intros [[= ->] ->] | by intros [[= ->] ->] | by intros []].
Qed.

Lemma delitem_return l k w w1 :
  Env.delitem l k w = (Return tt, w1) <->
  Py.dict_has k (w_heap w !!! l) = true /\
  w1 = set_heap (<[l := Py.dict_remove k (w_heap w !!! l)]> (w_heap w)) w.
Proof.
  unfold Env.delitem. rewrite (run_bind _ _ _ _ _ (load_run l w)).
  unfold Py.dict_del, mbind, M_bind, lift, Py.key_error, Env.store.
  destruct (Py.dict_has k (w_heap w !!! l)); split;
    first [by intros [= <-] | by intros [_ ->] | by intros []].
Qed.

Lemma getsize_return p w n w1 :
  Env.getsize p w = (Return n, w1) <->
  exists path, p = VStr path /\ w_fs w !! path = Some n /\ w1 = w.
Proof.
  unfold Env.getsize. split.
  - destruct p; try done. destruct (w_fs w !! s) eqn:Hs; [|done].
    intros [= -> ->]. eauto.
  - intros (path & -> & -> & ->). done.
Qed.

Lemma host_return op w w1 :
  Env.host op w = (Return tt, w1) <->
  w_host w (w_trace w ++ [op]) = None /\
  w1 = set_trace (w_trace w ++ [op]) w.
Proof.
  unfold Env.host. destruct (w_host w (w_trace w ++ [op])); split;
    first [by intros [= <-] | by intros [_ ->] | by intros []].
Qed.

Lemma get_id_run w :
  Util.get_id w
  = (Return (UUID.hex (UUID.uuid4 (w_entropy w (w_drawn w) mod 2 ^ 128))),
     set_drawn (S (w_drawn w)) w).
Proof.
  unfold Util.get_id, Env.urandom16, mbind, M_bind, lift.
  by rewrite id_of_random_eq by apply urandom16_range.
Qed.

End EnvFacts.

(** ** The identifier format *)

(** C9: every identifier [Util.get_id] produces is a string of exactly
    32 characters, each a lowercase hexadecimal digit (so it holds no
    separator); the call always returns. *)
Theorem get_id_is_32_lowercase_hex_digits (w : world) :
  exists id w',
    Util.get_id w = (Return id, w') /\
    String.length id = 32%nat /\
    forallb Hex.is_lower_hex (Str.to_list id) = true.
Proof.
  eexists _, _. split; [apply get_id_run|].
  pose proof (urandom16_range w) as Hr.
  apply set_version_range in Hr.
  unfold UUID.hex. split.
  - rewrite length_of_list. by apply format_032x_length.
  - rewrite to_list_of_list. apply forallb_forall, List.Forall_forall.
    apply format_032x_hex.
Qed.
(** ** Derived and new sends *)



Lemma payload_return msg newmsg w u w1 :
  (if Py.dict_has "data" (w_heap w !!! newmsg) then
     _ ← Env.delitem msg "fpath";
     data ← Env.getitem newmsg "data";
     n ← lift (Py.len data);
     Env.setitem newmsg "fsize" (VInt n)
   else
     has_fpath ← Env.contains newmsg "fpath";
     if (has_fpath : bool) then
       _ ← Env.delitem msg "data";
       fpath ← Env.getitem newmsg "fpath";
       n ← Env.getsize fpath;
       Env.setitem newmsg "fsize" (VInt n)
     else mret tt) w = (Return u, w1) ->
  exists h', payload_step (w_fs w) msg newmsg (w_heap w) h' /\
             w1 = set_heap h' w.
Proof.
  destruct (Py.dict_has "data" (w_heap w !!! newmsg)) eqn:Hdata.
  - intros H.
    apply bind_return in H as ([] & w2 & Hdel & H).
    apply delitem_return in Hdel as [Hfpath ->].
    apply bind_return in H as (data & w3 & Hget & H).
    apply getitem_return in Hget as [Hget ->].
    apply bind_return in H as (n & w4 & Hlen & H).
    apply lift_return in Hlen as [Hlen ->].
    rewrite setitem_run in H. injection H as <- <-.
    eexists. split; [by eapply payload_data|].
    by destruct w.
  - intros H. rewrite (run_bind _ _ _ _ _ (contains_run _ _ _)) in H.
    destruct (Py.dict_has "fpath" (w_heap w !!! newmsg)) eqn:Hfpath.
    + apply bind_return in H as ([] & w2 & Hdel & H).
      apply delitem_return in Hdel as [Hhas ->].
      apply bind_return in H as (fpath & w3 & Hget & H).
      apply getitem_return in Hget as [Hget ->].
      apply bind_return in H as (n & w4 & Hsize & H).
      apply getsize_return in Hsize as (path & -> & Hsize & ->).
      rewrite setitem_run in H. injection H as <- <-.
      eexists. split; [by eapply payload_fpath|].
      by destruct w.
    + injection H as <- <-.
      eexists. split; [by apply payload_none|]. by destruct w.
Qed.

Lemma send_message_return self msg newmsg w id w' :
  Service_send_message self msg newmsg w = (Return id, w') ->
  exists parent h' merged parms,
    id = UUID.hex (UUID.uuid4 (w_entropy w (w_drawn w) mod 2 ^ 128)) /\
    Py.dict_get "msgid" (w_heap w !!! msg) = Some parent /\
    payload_step (w_fs w) msg newmsg
      (<[newmsg := Py.dict_set "msgid" (VStr id)
                     (Py.dict_set "parent" parent (w_heap w !!! newmsg))]>
         (w_heap w)) h' /\
    Json.dumps (VDict (Py.dict_merge (h' !!! msg) (h' !!! newmsg)))
      = Return merged /\
    Json.dumps (svc_parms self) = Return parms /\
    w_host w (w_trace w ++ [send_message_call self merged parms]) = None /\
    w' = World h' (w_fs w) (w_entropy w) (S (w_drawn w)) (w_host w)
           (w_trace w ++ [send_message_call self merged parms]).
Proof.
  unfold Service_send_message. intros H.
  rewrite (run_bind _ _ _ _ _ (get_id_run w)) in H.
  set (id0 := UUID.hex _) in *.
  apply bind_return in H as (parent & w1 & Hparent & H).
  apply getitem_return in Hparent as [Hparent ->].
  rewrite (run_bind _ _ _ _ _ (setitem_run _ _ _ _)) in H.
  rewrite (run_bind _ _ _ _ _ (setitem_run _ _ _ _)) in H.
  rewrite (run_bind _ _ _ _ _ (contains_run _ _ _)) in H.
  apply bind_return in H as (u & w2 & Hstep & H).
  apply payload_return in Hstep as (h' & Hstep & ->).
  rewrite (run_bind _ _ _ _ _ (load_run _ _)) in H.
  rewrite (run_bind _ _ _ _ _ (load_run _ _)) in H.
  apply bind_return in H as (merged & w3 & Hmerged & H).
  apply lift_return in Hmerged as [Hmerged ->].
  apply bind_return in H as (parms & w4 & Hparms & H).
  apply lift_return in Hparms as [Hparms ->].
  apply bind_return in H as ([] & w5 & Hcall & H).
  apply host_return in Hcall as [Hcall ->].
  injection H as <- <-.
  cbn [w_heap set_heap set_drawn set_trace w_fs w_entropy w_drawn w_host
       w_trace] in *.
  rewrite lookup_total_insert_eq, insert_insert_eq in Hstep.
  exists parent, h', merged, parms. done.
Qed.

(** Lookups in the objects a send leaves behind. *)
Ltac eval_key_tests :=
  repeat match goal with
    | |- context [String.eqb ?a ?b] =>
        let r := eval vm_compute in (String.eqb a b) in
        match r with
        | true => change (String.eqb a b) with true
        | false => change (String.eqb a b) with false
        end
    end;
  cbn [orb andb].


Ltac heap_simpl :=
  repeat first
    [ rewrite lookup_total_insert_eq
    | rewrite lookup_total_insert_ne by done
    | rewrite dict_get_merge
    | rewrite dict_has_merge
    | rewrite dict_get_set
    | rewrite dict_has_set
    | rewrite dict_get_remove
    | rewrite dict_has_remove ];
  eval_key_tests.


Ltac invert_payload H :=
  inversion H as [data n Hdata Hfpath h1 Hget Hlen Hh'
                 |path n Hdata Hfpath Hhas h1 Hget Hsize Hh'
                 |Hdata Hfpath Hh']; subst; try subst h1.


Lemma id_of_random_inj r1 r2 :
  0 <= r1 < 2 ^ 128 -> 0 <= r2 < 2 ^ 128 ->
  Util.id_of_random r1 = Util.id_of_random r2 ->
  UUID.uuid4 r1 = UUID.uuid4 r2.
Proof.
  intros H1 H2. rewrite !id_of_random_eq by done.
  intros [= Heq%of_list_inj].
  apply set_version_range in H1, H2.
  apply format_032x_inj in Heq; [done|apply H1|apply H2].
Qed.

(** C2, as the code has it: the merged envelope of a derived send has
    the original's [msgid] as [parent] and, as [msgid], the identifier
    made from this call's sixteen random bytes, which is also the value
    returned.  Nothing compares it with other identifiers: it differs
    from the identifier of any draw whose version-4 integer differs. *)
Theorem send_message_lineage self msg newmsg w id w' :
  Service_send_message self msg newmsg w = (Return id, w') ->
  let draw := w_entropy w (w_drawn w) mod 2 ^ 128 in
  exists parent merged text parms,
    w_trace w' = w_trace w ++ [send_message_call self text parms] /\
    Json.dumps (VDict merged) = Return text /\
    Py.dict_get "msgid" (w_heap w !!! msg) = Some parent /\
    Py.dict_get "parent" merged = Some parent /\
    Py.dict_get "msgid" merged = Some (VStr id) /\
    Util.id_of_random draw = Return id /\
    (forall r, 0 <= r < 2 ^ 128 -> UUID.uuid4 r <> UUID.uuid4 draw ->
               Util.id_of_random r <> Return id).
Proof.
  intros Hrun draw.
  apply send_message_return in Hrun
    as (parent & h' & text & parms & Hid & Hparent & Hstep & Htext & Hparms
        & Hhost & ->).
  pose proof (urandom16_range w) as Hdraw. fold draw in Hdraw, Hid.
  exists parent. eexists _, text, parms.
  split; [reflexivity|]. split; [exact Htext|]. split; [exact Hparent|].
  assert (Hrand : Util.id_of_random draw = Return id).
  { rewrite Hid. by apply id_of_random_eq. }
  refine (conj _ (conj _ (conj Hrand _))).
  - invert_payload Hstep;
      destruct (decide (msg = newmsg)) as [->|Hne]; by heap_simpl.
  - invert_payload Hstep;
      destruct (decide (msg = newmsg)) as [->|Hne]; by heap_simpl.
  - intros r Hr Hne Heq. apply Hne.
    apply id_of_random_inj; [done|done|congruence].
Qed.





(** ** Faults of the callbacks *)


Lemma dumps_error_result reason :
  Json.dumps (VDict (Py.dict_lit [("error", VBool true);
                                  ("reason", VStr reason)]))
  = Return (error_result_text reason).
Proof. reflexivity. Qed.


Section Dispatch.

Variable json_loads : string -> outcome val.




End Dispatch.

(** ** Construction *)

Section Construction.

Variable json_loads : string -> outcome val.

Lemma outcome_bind_return {A B} (o : outcome A) (f : A -> outcome B) b :
  o ≫= f = Return b <-> exists a, o = Return a /\ f a = Return b.
Proof.
  unfold mbind, outcome_bind. destruct o as [a|e]; split.
  - eauto.
  - by intros (? & [= <-] & ?).
  - done.
  - by intros (? & ? & ?).
Qed.

Lemma action_init_return msgdata self :
  Action_init json_loads msgdata = Return self ->
  exists flag,
    Py.subscript (act_parms self) "use_provider" = Return flag /\
    if Py.truthy flag
    then exists p, Py.subscript (act_parms self) "provider" = Return p /\
                   act_provider self = Some p
    else act_provider self = None.
Proof.
  unfold Action_init. intros H.
  apply outcome_bind_return in H as (payload & _ & H).
  apply outcome_bind_return in H as (msg & _ & H).
  apply outcome_bind_return in H as (parms & _ & H).
  apply outcome_bind_return in H as (sysparms & _ & H).
  apply outcome_bind_return in H as (extra & _ & H).
  apply outcome_bind_return in H as (flag & Hflag & H).
  apply outcome_bind_return in H as (provider & Hprovider & H).
  apply outcome_bind_return in H as (sid & _ & H).
  apply outcome_bind_return in H as (logger & _ & H).
  injection H as <-. cbn [act_parms act_provider].
  exists flag. split; [exact Hflag|].
  destruct (Py.truthy flag).
  - apply outcome_bind_return in Hprovider as (p & Hp & [= <-]). eauto.
  - by injection Hprovider as <-.
Qed.

(** C5, as the code has it: in a construction that completes, the
    flag [parms["use_provider"]] is present, and [provider] is set
    (to [parms["provider"]]) exactly when the flag is true in a
    condition; this holds for [Endpoint] too.  When the flag is
    absent from [parms], construction raises [KeyError]. *)
Theorem init_provider msgdata :
  (forall self,
     Action_init json_loads msgdata = Return self ->
     exists flag,
       Py.subscript (act_parms self) "use_provider" = Return flag /\
       (Py.truthy flag = true ->
        exists p, Py.subscript (act_parms self) "provider" = Return p /\
                  act_provider self = Some p) /\
       (Py.truthy flag = false -> act_provider self = None)) /\
  (forall ep,
     Endpoint_init json_loads msgdata = Return ep ->
     Action_init json_loads msgdata = Return (ep_action ep)) /\
  (forall payload msg parms sysparms extra,
     json_loads msgdata = Return payload ->
     Py.subscript payload "msg" = Return msg ->
     Py.subscript payload "parms" = Return (VDict parms) ->
     Py.subscript payload "sysparms" = Return sysparms ->
     Py.dict_get "parms" parms = Some extra ->
     Py.dict_get "use_provider" parms = None ->
     Action_init json_loads msgdata
     = Raise (Exn KeyError (Py.repr_key "use_provider")) /\
     Endpoint_init json_loads msgdata
     = Raise (Exn KeyError (Py.repr_key "use_provider"))).
Proof.
  refine (conj _ (conj _ _)).
  - intros self Hinit.
    apply action_init_return in Hinit as (flag & Hflag & Hprov).
    exists flag. split; [exact Hflag|].
    destruct (Py.truthy flag); split; intros; done.
  - unfold Endpoint_init. intros ep H.
    apply outcome_bind_return in H as (self & Hself & H).
    apply outcome_bind_return in H as (pp & _ & H).
    apply outcome_bind_return in H as (qp & _ & H).
    by injection H as <-.
  - intros payload msg parms sysparms extra Hloads Hmsg Hparms Hsys
      Hextra Hflag.
    assert (Hinit : Action_init json_loads msgdata
                    = Raise (Exn KeyError (Py.repr_key "use_provider"))).
    { unfold Action_init, mbind, outcome_bind.
      rewrite Hloads, Hmsg, Hparms, Hsys. cbn [Py.subscript].
      by rewrite Hextra, Hflag. }
    split; [exact Hinit|].
    unfold Endpoint_init, mbind, outcome_bind. by rewrite Hinit.
Qed.

End Construction.

(** ** Logging *)


(** C7, as the code has it: [log] issues one host operation and has
    no handler around it; it returns when the transport does and
    raises the transport's exception when the transport fails.  [info],
    [debug], [warning] and [error] are [log] at a fixed level. *)
Theorem log_propagates_transport_fault self level message w :
  let issued := w_trace w ++ [log_op self level message] in
  Logger.log self level message w
  = (match w_host w issued with
     | Some e => Raise e
     | None => Return tt
     end, set_trace issued w) /\
  Logger.info self message = Logger.log self "info" message /\
  Logger.debug self message = Logger.log self "debug" message /\
  Logger.warning self message = Logger.log self "warning" message /\
  Logger.error self message = Logger.log self "error" message.
Proof.
  split; [|done].
  unfold Logger.log, log_op, Service_log, Env.call, Env.cast, Env.host.
  destruct (lg_service self) as [service|];
    match goal with
    | |- context [w_host w ?t] => by destruct (w_host w t)
    end.
Qed.

(** ** Result builders *)


(** ** The sends, the callbacks and the builders on concrete runs *)



(** The derived send of an original [{"msgid": "A", "data": "old"}]
    with the overlay [{"fpath": "/x"}]. *)
Lemma send_message_lineage_scenario :
  let run := Service_send_message Scenario.service 0%nat 1%nat
               Scenario.converted in
  fst run = Return Scenario.derived_id /\
  exists merged text parms,
    w_trace (snd run) = [send_message_call Scenario.service text parms] /\
    Json.dumps (VDict merged) = Return text /\
    Py.dict_get "parent" merged = Some (VStr "A") /\
    Py.dict_get "msgid" merged = Some (VStr Scenario.derived_id) /\
    Util.id_of_random 7 = Return Scenario.derived_id.
Proof.
  intros run. split; [vm_compute; reflexivity|].
  destruct (send_message_lineage Scenario.service 0%nat 1%nat
              Scenario.converted Scenario.derived_id (snd run))
    as (parent & merged & text & parms & Htrace & Htext & Horiginal
        & Hparent & Hmsgid & Hid & _).
  { vm_compute. reflexivity. }
  vm_compute in Horiginal. injection Horiginal as <-.
  exists merged, text, parms.
  exact (conj Htrace (conj Htext (conj Hparent (conj Hmsgid Hid)))).
Defined.

(** Against C2 as stated: when the random source repeats a draw, two
    derived sends in a row get the same identifier. *)
Lemma send_message_repeats_identifier :
  let first := Service_send_message Scenario.service 0%nat 1%nat
                 Scenario.replay in
  let second := Service_send_message Scenario.service 2%nat 3%nat
                  (snd first) in
  fst first = Return Scenario.derived_id /\
  fst second = Return Scenario.derived_id /\
  Py.dict_get "msgid" (w_heap (snd second) !!! 1%nat)
  = Py.dict_get "msgid" (w_heap (snd second) !!! 3%nat).
Proof. vm_compute. repeat split; reflexivity. Qed.






(** The construction of an action whose flag is true. *)
Lemma init_provider_scenario :
  exists self p,
    Action_init (Scenario.decoder [Scenario.request])
      (Scenario.text_of Scenario.request) = Return self /\
    Py.subscript (act_parms self) "provider" = Return p /\
    act_provider self = Some p.
Proof.
  destruct (Action_init (Scenario.decoder [Scenario.request])
              (Scenario.text_of Scenario.request)) as [self|e] eqn:Hinit;
    [|vm_compute in Hinit; discriminate Hinit].
  destruct (init_provider (Scenario.decoder [Scenario.request])
              (Scenario.text_of Scenario.request)) as [Hflag _].
  destruct (Hflag self Hinit) as (flag & Hsub & Htrue & _).
  pose proof Hinit as Hmade.
  vm_compute in Hinit. injection Hinit as <-.
  vm_compute in Hsub. injection Hsub as <-.
  destruct (Htrue eq_refl) as (p & Hp & Hprovider).
  eexists. exists p. exact (conj Hmade (conj Hp Hprovider)).
Defined.

(** Against C5 as stated: with no [use_provider] in [parms] the
    construction raises [KeyError]. *)
Lemma init_without_flag_raises :
  Py.subscript Scenario.request_without_flag "parms"
  = Return (VDict [("parms", VDict [])]) /\
  Action_init (Scenario.decoder [Scenario.request_without_flag])
    (Scenario.text_of Scenario.request_without_flag)
  = Raise (Exn KeyError "'use_provider'") /\
  Endpoint_init (Scenario.decoder [Scenario.request_without_flag])
    (Scenario.text_of Scenario.request_without_flag)
  = Raise (Exn KeyError "'use_provider'").
Proof. vm_compute. repeat split; reflexivity. Qed.

(** Against C7 as stated: when the port to the host is closed, a call
    to [info] raises. *)
Lemma log_raises_when_transport_fails :
  fst (Logger.info (Logger_init None None) (VStr "started") Scenario.offline)
  = Raise (Exn OSError "port closed") /\
  fst (Logger.error (svc_logger Scenario.service) (VStr "failed")
         Scenario.offline)
  = Raise (Exn OSError "port closed").
Proof. vm_compute. split; reflexivity. Qed.


(** ** The version and variant digits of an identifier *)

Lemma fixed_hex_zero k : fixed_hex k 0 = replicate k "0"%char.
Proof.
  induction k as [|k IH]; [done|]. cbn [fixed_hex].
  change (0 / 16) with 0. rewrite IH.
  change [Hex.digit (0 mod 16)] with (replicate 1 "0"%char).
  rewrite <- replicate_add. f_equal. lia.
Qed.

Lemma length_fixed_hex k n : length (fixed_hex k n) = k.
Proof.
  revert n. induction k as [|k IH]; intros n; [done|].
  cbn [fixed_hex]. rewrite length_app, IH. cbn. lia.
Qed.

(** ['%x'] padded to [k] digits is the fixed-width form. *)
Lemma format_aux_fixed fuel : forall (k : nat) n acc,
  (1 <= k)%nat -> 0 <= n < 16 ^ Z.of_nat fuel -> n < 16 ^ Z.of_nat k ->
  replicate (k + length acc - length (Hex.format_aux fuel n acc)) "0"%char
    ++ Hex.format_aux fuel n acc
  = fixed_hex k n ++ acc.
Proof.
  induction fuel as [|fuel IH]; intros k n acc Hk Hfuel Hn.
  { cbn in Hfuel. replace n with 0 by lia. cbn [Hex.format_aux].
    rewrite fixed_hex_zero. f_equal. f_equal. lia. }
  cbn [Hex.format_aux]. destruct k as [|k]; [lia|]. cbn [fixed_hex].
  destruct (Z.eqb_spec (n / 16) 0) as [Hq|Hq].
  - rewrite Hq, fixed_hex_zero. cbn [length].
    rewrite <- app_assoc. cbn [app]. f_equal. f_equal. lia.
  - assert (Hdiv : forall j : nat, n < 16 ^ Z.of_nat (S j) ->
                     0 <= n / 16 < 16 ^ Z.of_nat j).
    { intros j Hj. split; [apply Z.div_pos; lia|].
      apply Z.div_lt_upper_bound; [lia|].
      rewrite Nat2Z.inj_succ, Z.pow_succ_r in Hj; lia. }
    destruct k as [|k].
    { exfalso. apply Hq. specialize (Hdiv 0%nat Hn). cbn in Hdiv. lia. }
    specialize (IH (S k) (n / 16) (Hex.digit (n mod 16) :: acc)
                  ltac:(lia) (Hdiv fuel (proj2 Hfuel))
                  (proj2 (Hdiv (S k) Hn))).
    cbn [length] in IH. rewrite <- app_assoc. cbn [app].
    rewrite <- IH. f_equal. f_equal. lia.
Qed.

Lemma format_032x_fixed n :
  0 <= n < 2 ^ 128 -> Hex.format_032x n = fixed_hex 32 n.
Proof.
  intros Hn. unfold Hex.format_032x, Hex.zfill, Hex.format_x.
  pose proof (format_aux_fixed (S (Z.to_nat (Z.log2 n))) 32 n []
                ltac:(lia)
                (conj (proj1 Hn) (format_x_fuel n (proj1 Hn)))
                ltac:(change (16 ^ Z.of_nat 32) with (2 ^ 128); lia))
    as H.
  rewrite app_nil_r in H. exact H.
Qed.

Lemma nth_fixed_hex k : forall n (i : nat),
  (i < k)%nat ->
  nth i (fixed_hex k n) "0"%char
  = Hex.digit ((n / 16 ^ Z.of_nat (k - 1 - i)) mod 16).
Proof.
  induction k as [|k IH]; intros n i Hi; [lia|].
  cbn [fixed_hex].
  destruct (decide (i = k)) as [->|Hne].
  - rewrite app_nth2 by (rewrite length_fixed_hex; lia).
    rewrite length_fixed_hex.
    replace (k - k)%nat with 0%nat by lia.
    replace (S k - 1 - k)%nat with 0%nat by lia.
    cbn [nth]. by rewrite Z.pow_0_r, Z.div_1_r.
  - rewrite app_nth1 by (rewrite length_fixed_hex; lia).
    rewrite IH by lia. f_equal. f_equal.
    rewrite Z.div_div by lia. f_equal.
    replace (S k - 1 - i)%nat with (S (k - 1 - i))%nat by lia.
    by rewrite Nat2Z.inj_succ, Z.pow_succ_r by lia.
Qed.

(** The bits of the constants of [uuid.py]. *)
Ltac bits_of_constant j :=
  let H := fresh in
  assert (H : j < 0 \/ j = 0 \/ j = 1 \/ j = 2 \/ j = 3 \/ j = 4 \/ j = 5
              \/ j = 6 \/ j = 7 \/ j = 8 \/ j = 9 \/ j = 10 \/ j = 11
              \/ j = 12 \/ j = 13 \/ j = 14 \/ j = 15 \/ 16 <= j) by lia;
  repeat (destruct H as [H|H]; [try (subst j; reflexivity)|]);
  [ destruct j; try lia; reflexivity
  | rewrite Z.bits_above_log2 by (cbn; lia);
    symmetry; apply andb_false_iff; right; apply Z.ltb_ge; lia ].

Lemma testbit_c000 j : Z.testbit 0xc000 j = (14 <=? j) && (j <? 16).
Proof. bits_of_constant j. Qed.

Lemma testbit_8000 j : Z.testbit 0x8000 j = (15 <=? j) && (j <? 16).
Proof. bits_of_constant j. Qed.

Lemma testbit_f000 j : Z.testbit 0xf000 j = (12 <=? j) && (j <? 16).
Proof. bits_of_constant j. Qed.

Lemma testbit_4 j : Z.testbit 4 j = (2 <=? j) && (j <? 3).
Proof. bits_of_constant j. Qed.

(** [uuid4] keeps every random bit but six: bits 76 to 79 spell the
    version 4, bits 62 and 63 the variant. *)
Lemma uuid4_bits r i :
  0 <= i ->
  Z.testbit (UUID.uuid4 r) i
  = if (76 <=? i) && (i <? 80) then i =? 78
    else if (62 <=? i) && (i <? 64) then i =? 63
    else Z.testbit r i.
Proof.
  intros Hi. unfold UUID.uuid4, UUID.set_version.
  rewrite Z.lor_spec, Z.land_spec, Z.lor_spec, Z.land_spec.
  rewrite !Z.lnot_spec, !Z.shiftl_spec by lia.
  rewrite testbit_c000, testbit_8000, testbit_f000, testbit_4.
  destruct (Z.leb_spec 76 i), (Z.ltb_spec i 80), (Z.leb_spec 62 i),
    (Z.ltb_spec i 64); try lia; cbn [andb];
    repeat match goal with
      | |- context [?a <=? ?b] =>
          destruct (Z.leb_spec a b); try lia
      | |- context [?a <? ?b] =>
          destruct (Z.ltb_spec a b); try lia
      | |- context [?a =? ?b] =>
          destruct (Z.eqb_spec a b); try lia
      end; cbn; rewrite ?andb_true_r, ?orb_false_r, ?andb_false_r; done.
Qed.

(** The hexadecimal digit of [n] at weight [16 ^ p], bit by bit. *)
Lemma hex_digit_bits n p j :
  0 <= p -> 0 <= j ->
  Z.testbit ((n / 16 ^ p) mod 16) j
  = (j <? 4) && Z.testbit n (4 * p + j).
Proof.
  intros Hp Hj.
  replace (16 ^ p) with (2 ^ (4 * p))
    by (rewrite Z.pow_mul_r by lia; reflexivity).
  rewrite <- Z.shiftr_div_pow2 by lia.
  change 16 with (2 ^ 4). rewrite <- Z.land_ones by lia.
  rewrite Z.land_spec, Z.shiftr_spec by lia.
  rewrite (Z.add_comm j). rewrite andb_comm. f_equal.
  destruct (Z.ltb_spec j 4).
  - apply Z.ones_spec_low. lia.
  - apply Z.ones_spec_high. lia.
Qed.

(** A digit value is fixed by its four bits. *)
Lemma digit_of_bits x (b0 b1 b2 b3 : bool) :
  0 <= x < 16 ->
  Z.testbit x 0 = b0 -> Z.testbit x 1 = b1 ->
  Z.testbit x 2 = b2 -> Z.testbit x 3 = b3 ->
  x = Z.b2z b0 + 2 * Z.b2z b1 + 4 * Z.b2z b2 + 8 * Z.b2z b3.
Proof.
  intros Hx.
  assert (H : x = 0 \/ x = 1 \/ x = 2 \/ x = 3 \/ x = 4 \/ x = 5 \/ x = 6
              \/ x = 7 \/ x = 8 \/ x = 9 \/ x = 10 \/ x = 11 \/ x = 12
              \/ x = 13 \/ x = 14 \/ x = 15) by lia.
  repeat (destruct H as [H|H]; [subst x; by intros <- <- <- <-|]).
  subst x. by intros <- <- <- <-.
Qed.

(** X1: The identifier [get_id] returns is that of a version-4 UUID:
    its thirteenth character is [4] and its seventeenth is one of [8],
    [9], [a], [b], whatever the random source gives. *)
Theorem get_id_is_version_4 (w : world) :
  exists id w',
    Util.get_id w = (Return id, w') /\
    nth 12 (Str.to_list id) "0"%char = "4"%char /\
    nth 16 (Str.to_list id) "0"%char ∈ ["8"; "9"; "a"; "b"]%char.
Proof.
  eexists _, _. split; [apply get_id_run|].
  pose proof (urandom16_range w) as Hr.
  set (r := w_entropy w (w_drawn w) mod 2 ^ 128) in *.
  pose proof (set_version_range r Hr) as Hn. fold (UUID.uuid4 r) in Hn.
  unfold UUID.hex. rewrite to_list_of_list, format_032x_fixed by done.
  rewrite !nth_fixed_hex by lia.
  change (Z.of_nat (32 - 1 - 12)) with 19.
  change (Z.of_nat (32 - 1 - 16)) with 15.
  assert (Hbound : forall p, 0 <= (UUID.uuid4 r / 16 ^ p) mod 16 < 16).
  { intros p. apply Z.mod_pos_bound. lia. }
  split.
  - rewrite (digit_of_bits _ false false true false (Hbound 19));
      [reflexivity|..];
      rewrite hex_digit_bits, uuid4_bits by lia; reflexivity.
  - pose proof (digit_of_bits _ _ _ false true (Hbound 15)
                  eq_refl eq_refl) as Hx.
    rewrite Hx by (rewrite hex_digit_bits, uuid4_bits by lia; reflexivity).
    destruct (Z.testbit _ 0), (Z.testbit _ 1); cbn;
      rewrite !elem_of_cons; auto.
Qed.

(** X2: Two draws give the same identifier exactly when they agree on
    every bit but the six that [uuid4] overwrites: an identifier
    carries 122 bits of the random source. *)
Theorem ids_collide_on_kept_bits r1 r2 :
  0 <= r1 < 2 ^ 128 -> 0 <= r2 < 2 ^ 128 ->
  Util.id_of_random r1 = Util.id_of_random r2 <->
  forall i, 0 <= i -> ~ 62 <= i < 64 -> ~ 76 <= i < 80 ->
    Z.testbit r1 i = Z.testbit r2 i.
Proof.
  intros H1 H2. split.
  - intros Heq%id_of_random_inj i Hi H62 H76; [|done|done].
    pose proof (uuid4_bits r1 i Hi) as Hb1.
    pose proof (uuid4_bits r2 i Hi) as Hb2.
    rewrite Heq in Hb1. rewrite Hb1 in Hb2. clear Hb1.
    destruct (Z.leb_spec 76 i), (Z.ltb_spec i 80), (Z.leb_spec 62 i),
      (Z.ltb_spec i 64); cbn [andb] in Hb2; try lia; done.
  - intros Hbits. rewrite !id_of_random_eq by done. do 2 f_equal.
    apply Z.bits_inj'. intros i Hi. rewrite !uuid4_bits by done.
    destruct (Z.leb_spec 76 i), (Z.ltb_spec i 80), (Z.leb_spec 62 i),
      (Z.ltb_spec i 64); cbn [andb]; try done; apply Hbits; lia.
Qed.

(** ** Effects of the sends *)

Section Effects.

Context {A B : Type}.
Implicit Types (L : list loc) (w : world).

Lemma quiet_refl L w : quiet L w w.
Proof. by repeat split. Qed.

Lemma quiet_trans L w1 w2 w3 :
  quiet L w1 w2 -> quiet L w2 w3 -> quiet L w1 w3.
Proof.
  intros (Hfs & Hen & Hdr & Hho & Htr & Hheap)
         (Hfs' & Hen' & Hdr' & Hho' & Htr' & Hheap').
  repeat split; try congruence.
  intros l Hl. by rewrite Hheap', Hheap.
Qed.

Lemma quietly_bind L (m : M A) (f : A -> M B) :
  quietly L m -> (forall a, quietly L (f a)) -> quietly L (m ≫= f).
Proof.
  intros Hm Hf w. specialize (Hm w). unfold mbind, M_bind.
  destruct (m w) as [[a|e] w1]; cbn [snd] in *; [|exact Hm].
  eapply quiet_trans; [exact Hm|apply Hf].
Qed.

Lemma quietly_ret L (a : A) : quietly L (mret a).
Proof. intros w. apply quiet_refl. Qed.

Lemma quietly_lift L (o : outcome A) : quietly L (lift o).
Proof. intros w. apply quiet_refl. Qed.

Lemma quietly_if L (b : bool) (m1 m2 : M A) :
  quietly L m1 -> quietly L m2 -> quietly L (if b then m1 else m2).
Proof. by destruct b. Qed.

Lemma dispatches_bind L P (m : M A) (f : A -> M B) :
  quietly L m -> (forall a w, dispatches L P w (f a w)) ->
  forall w, dispatches L P w ((m ≫= f) w).
Proof.
  intros Hm Hf w.
  destruct (Hm w) as (Hfs & Hen & Hdr & Hho & Htr & Hheap).
  unfold mbind, M_bind.
  destruct (m w) as [[a|e] w1]; cbn [snd] in *.
  - destruct (Hf a w1) as (Hfs' & Hdr' & Hheap' & Hop).
    refine (conj _ (conj _ (conj _ _))); try congruence.
    + intros l Hl. by rewrite Hheap', Hheap.
    + rewrite <- Htr, <- Hho. exact Hop.
  - refine (conj Hfs (conj Hdr (conj Hheap _))). by left.
Qed.

Lemma dispatches_host L (P : host_op -> Prop) op (a : A) w :
  P op -> dispatches L P w ((Env.host op ≫= fun _ => mret a) w).
Proof.
  intros Hop. unfold dispatches, mbind, M_bind, Env.host.
  destruct (w_host w (w_trace w ++ [op])) as [e|] eqn:Hhost; cbn;
    repeat split; right; exists op; repeat split; try done.
  by intros e' [= <-].
Qed.

End Effects.

Lemma quietly_load L l : quietly L (Env.load l).
Proof. intros w. apply quiet_refl. Qed.

Lemma quietly_store L l d : l ∈ L -> quietly L (Env.store l d).
Proof.
  intros Hl w. repeat split. intros l' Hl'. cbn.
  apply lookup_insert_ne. by intros ->.
Qed.

Lemma quietly_contains L l k : quietly L (Env.contains l k).
Proof. intros w. apply quiet_refl. Qed.

Lemma quietly_getitem L l k : quietly L (Env.getitem l k).
Proof. intros w. apply quiet_refl. Qed.

Lemma quietly_getsize L p : quietly L (Env.getsize p).
Proof.
  intros w. unfold Env.getsize.
  destruct p; try apply quiet_refl.
  destruct (w_fs w !! s); apply quiet_refl.
Qed.

Lemma quietly_setitem L l k v : l ∈ L -> quietly L (Env.setitem l k v).
Proof.
  intros Hl. apply quietly_bind; [apply quietly_load|].
  intros d. by apply quietly_store.
Qed.

Lemma quietly_delitem L l k : l ∈ L -> quietly L (Env.delitem l k).
Proof.
  intros Hl. apply quietly_bind; [apply quietly_load|]. intros d.
  apply quietly_bind; [apply quietly_lift|]. intros d'.
  by apply quietly_store.
Qed.

(** Proves [quietly L m] for a computation made of the operations
    above. *)
Ltac solve_elem_of :=
  first [ apply list_elem_of_here
        | apply list_elem_of_further, list_elem_of_here ].

Ltac quietly_step :=
  lazymatch goal with
  | |- quietly _ (Env.setitem _ _ _) =>
      apply quietly_setitem; solve_elem_of
  | |- quietly _ (Env.delitem _ _) =>
      apply quietly_delitem; solve_elem_of
  | |- quietly _ (Env.getitem _ _) => apply quietly_getitem
  | |- quietly _ (Env.contains _ _) => apply quietly_contains
  | |- quietly _ (Env.getsize _) => apply quietly_getsize
  | |- quietly _ (Env.load _) => apply quietly_load
  | |- quietly _ (lift _) => apply quietly_lift
  | |- quietly _ (mret _) => apply quietly_ret
  | |- quietly _ (if _ then _ else _) => apply quietly_if
  | |- quietly _ (_ ≫= _) => apply quietly_bind; [|intros ?]
  end.

Ltac solve_quietly := solve [repeat quietly_step].

Lemma send_message_dispatches self msg newmsg w :
  dispatches [msg; newmsg]
    (fun op => exists text parms, op = send_message_call self text parms)
    (set_drawn (S (w_drawn w)) w)
    (Service_send_message self msg newmsg w).
Proof.
  unfold Service_send_message.
  rewrite (run_bind _ _ _ _ _ (get_id_run w)).
  generalize (UUID.hex (UUID.uuid4 (w_entropy w (w_drawn w) mod 2 ^ 128))).
  generalize (set_drawn (S (w_drawn w)) w). intros w0 id.
  repeat (apply dispatches_bind; [solve_quietly|intros ? ?]).
  unfold Env.call. apply dispatches_host. eexists _, _. reflexivity.
Qed.


(** X3: A derived send, whatever its outcome, draws one identifier,
    changes no dict object but the two it is given, leaves the file
    system alone and issues at most one host operation: the
    [send_message] call. If it raises after the call was issued, the
    exception is the transport's. *)
Theorem send_message_effect self msg newmsg w :
  let r := Service_send_message self msg newmsg w in
  w_fs (snd r) = w_fs w /\
  w_drawn (snd r) = S (w_drawn w) /\
  (forall l, l <> msg -> l <> newmsg ->
     w_heap (snd r) !! l = w_heap w !! l) /\
  (w_trace (snd r) = w_trace w \/
   exists text parms,
     w_trace (snd r) = w_trace w ++ [send_message_call self text parms] /\
     forall e, fst r = Raise e -> w_host w (w_trace (snd r)) = Some e).
Proof.
  intros r.
  destruct (send_message_dispatches self msg newmsg w)
    as (Hfs & Hdr & Hheap & Hop).
  refine (conj Hfs (conj Hdr (conj _ _))).
  - intros l H1 H2. apply Hheap.
    rewrite !not_elem_of_cons.
    exact (conj H1 (conj H2 (not_elem_of_nil l))).
  - destruct Hop as [Hsame|(op & (text & parms & ->) & Htrace & Hfault)];
      [left; exact Hsame|right].
    exists text, parms. exact (conj Htrace Hfault).
Qed.


(** ** Sends that fail before anything is dispatched *)

Lemma getitem_run l k w :
  Env.getitem l k w = (Py.subscript (VDict (w_heap w !!! l)) k, w).
Proof. reflexivity. Qed.

Lemma delitem_run l k w :
  Env.delitem l k w
  = if Py.dict_has k (w_heap w !!! l)
    then (Return tt,
          set_heap (<[l := Py.dict_remove k (w_heap w !!! l)]> (w_heap w)) w)
    else (Raise (Exn KeyError (Py.repr_key k)), w).
Proof.
  unfold Env.delitem, Py.dict_del, mbind, M_bind, Env.load, lift.
  by destruct (Py.dict_has k (w_heap w !!! l)).
Qed.

(** The dict object at [l] after [parent] and [msgid] were written to
    the overlay at [newmsg]. *)
Lemma lookup_after_lineage (h : gmap loc dict) l newmsg parent id k :
  k <> "parent" -> k <> "msgid" ->
  Py.dict_has k
    (<[newmsg := Py.dict_set "msgid" id
                   (Py.dict_set "parent" parent (h !!! newmsg))]> h !!! l)
  = Py.dict_has k (h !!! l).
Proof.
  intros Hp Hm. destruct (decide (l = newmsg)) as [->|Hne].
  - rewrite lookup_total_insert_eq, !dict_has_set.
    destruct (String.eqb_spec "msgid" k) as [<-|_]; [done|].
    by destruct (String.eqb_spec "parent" k) as [<-|_].
  - by rewrite lookup_total_insert_ne.
Qed.

(** X5: An original without [msgid]: the send raises [KeyError] at its
    first subscript. The identifier has been drawn; no dict object has
    changed and nothing was sent. *)
Theorem send_message_without_msgid self msg newmsg w :
  Py.dict_get "msgid" (w_heap w !!! msg) = None ->
  Service_send_message self msg newmsg w
  = (Raise (Exn KeyError (Py.repr_key "msgid")),
     set_drawn (S (w_drawn w)) w).
Proof.
  intros Hnone. unfold Service_send_message.
  rewrite (run_bind _ _ _ _ _ (get_id_run w)).
  apply run_bind_raise. rewrite getitem_run. cbn [Py.subscript w_heap set_drawn].
  by rewrite Hnone.
Qed.

(** X6: An overlay that switches the payload of an original that has
    nothing to switch: with [data] in the overlay and no [fpath] in
    the original, [del msg["fpath"]] raises [KeyError]; with [fpath]
    and no [data] in the overlay and no [data] in the original, [del
    msg["data"]] does. The overlay has already been given [parent] and
    [msgid]; nothing was sent. *)
Theorem send_message_nothing_to_switch self msg newmsg w parent :
  Py.dict_get "msgid" (w_heap w !!! msg) = Some parent ->
  let id := UUID.hex (UUID.uuid4 (w_entropy w (w_drawn w) mod 2 ^ 128)) in
  let overlay' := Py.dict_set "msgid" (VStr id)
                    (Py.dict_set "parent" parent (w_heap w !!! newmsg)) in
  let w' := World (<[newmsg := overlay']> (w_heap w)) (w_fs w)
              (w_entropy w) (S (w_drawn w)) (w_host w) (w_trace w) in
  (Py.dict_has "data" (w_heap w !!! newmsg) = true ->
   Py.dict_has "fpath" (w_heap w !!! msg) = false ->
   Service_send_message self msg newmsg w
   = (Raise (Exn KeyError (Py.repr_key "fpath")), w')) /\
  (Py.dict_has "data" (w_heap w !!! newmsg) = false ->
   Py.dict_has "fpath" (w_heap w !!! newmsg) = true ->
   Py.dict_has "data" (w_heap w !!! msg) = false ->
   Service_send_message self msg newmsg w
   = (Raise (Exn KeyError (Py.repr_key "data")), w')).
Proof.
  intros Hparent id overlay' w'.
  assert (Hget : Env.getitem msg "msgid" (set_drawn (S (w_drawn w)) w)
                 = (Return parent, set_drawn (S (w_drawn w)) w)).
  { rewrite getitem_run. cbn [Py.subscript w_heap set_drawn].
    by rewrite Hparent. }
  unfold Service_send_message.
  rewrite (run_bind _ _ _ _ _ (get_id_run w)). fold id.
  rewrite (run_bind _ _ _ _ _ Hget).
  rewrite (run_bind _ _ _ _ _ (setitem_run _ _ _ _)).
  rewrite (run_bind _ _ _ _ _ (setitem_run _ _ _ _)).
  rewrite (run_bind _ _ _ _ _ (contains_run _ _ _)).
  unfold set_heap, set_drawn.
  cbn [w_heap w_fs w_entropy w_drawn w_host w_trace].
  rewrite !lookup_total_insert_eq, insert_insert_eq.
  fold overlay'. fold w'.
  assert (Hsame : forall l k, k <> "parent" -> k <> "msgid" ->
            Py.dict_has k (w_heap w' !!! l) = Py.dict_has k (w_heap w !!! l)).
  { intros l k Hp Hm. by apply lookup_after_lineage. }
  replace (Py.dict_has "data" overlay')
    with (Py.dict_has "data" (w_heap w !!! newmsg))
    by (subst overlay'; by rewrite !dict_has_set).
  split.
  - intros Hdata Hnofpath. rewrite Hdata.
    apply run_bind_raise, run_bind_raise. rewrite delitem_run.
    by rewrite Hsame, Hnofpath.
  - intros Hnodata Hfpath Hnone. rewrite Hnodata.
    apply run_bind_raise.
    rewrite (run_bind _ _ _ _ _ (contains_run _ _ _)).
    rewrite Hsame, Hfpath by done.
    apply run_bind_raise. rewrite delitem_run.
    by rewrite Hsame, Hnone.
Qed.

(** X7: Data that has no length: [len] raises after [fpath] was
    deleted from the original, so the failed send leaves the original
    without its [fpath], the overlay with [parent] and [msgid], and
    nothing sent. *)
Theorem send_message_fails_after_deleting self msg newmsg w parent data e :
  msg <> newmsg ->
  Py.dict_get "msgid" (w_heap w !!! msg) = Some parent ->
  Py.dict_get "data" (w_heap w !!! newmsg) = Some data ->
  Py.dict_has "fpath" (w_heap w !!! msg) = true ->
  Py.len data = Raise e ->
  let id := UUID.hex (UUID.uuid4 (w_entropy w (w_drawn w) mod 2 ^ 128)) in
  let overlay' := Py.dict_set "msgid" (VStr id)
                    (Py.dict_set "parent" parent (w_heap w !!! newmsg)) in
  let original' := Py.dict_remove "fpath" (w_heap w !!! msg) in
  Service_send_message self msg newmsg w
  = (Raise e,
     World (<[msg := original']> (<[newmsg := overlay']> (w_heap w)))
       (w_fs w) (w_entropy w) (S (w_drawn w)) (w_host w) (w_trace w)).
Proof.
  intros Hne Hparent Hdata Hfpath Hlen id overlay' original'.
  assert (Hget : Env.getitem msg "msgid" (set_drawn (S (w_drawn w)) w)
                 = (Return parent, set_drawn (S (w_drawn w)) w)).
  { rewrite getitem_run. cbn [Py.subscript w_heap set_drawn].
    by rewrite Hparent. }
  unfold Service_send_message.
  rewrite (run_bind _ _ _ _ _ (get_id_run w)). fold id.
  rewrite (run_bind _ _ _ _ _ Hget).
  rewrite (run_bind _ _ _ _ _ (setitem_run _ _ _ _)).
  rewrite (run_bind _ _ _ _ _ (setitem_run _ _ _ _)).
  rewrite (run_bind _ _ _ _ _ (contains_run _ _ _)).
  unfold set_heap, set_drawn.
  cbn [w_heap w_fs w_entropy w_drawn w_host w_trace].
  rewrite !lookup_total_insert_eq, insert_insert_eq.
  fold overlay'.
  assert (Hhas : Py.dict_has "data" overlay' = true).
  { subst overlay'. rewrite !dict_has_set. cbn.
    apply dict_has_true. by exists data. }
  rewrite Hhas. cbv iota. apply run_bind_raise.
  erewrite (run_bind (Env.delitem msg "fpath")).
  2:{ rewrite delitem_run. cbn [w_heap].
      rewrite lookup_total_insert_ne, Hfpath by done.
      unfold set_heap. cbn [w_heap w_fs w_entropy w_drawn w_host w_trace].
      fold original'. reflexivity. }
  erewrite (run_bind (Env.getitem newmsg "data")).
  2:{ rewrite getitem_run. cbn [w_heap Py.subscript].
      rewrite lookup_total_insert_ne, lookup_total_insert_eq by done.
      subst overlay'. rewrite !dict_get_set. cbn. rewrite Hdata.
      reflexivity. }
  apply run_bind_raise. unfold lift. by rewrite Hlen.
Qed.

(** X8: A new envelope with neither [data] nor [fpath]: the send
    raises [KeyError] on [fpath]. The envelope has been given [msgid];
    nothing was cast. *)
Theorem send_new_without_payload self newmsg w :
  Py.dict_has "data" (w_heap w !!! newmsg) = false ->
  Py.dict_has "fpath" (w_heap w !!! newmsg) = false ->
  let id := UUID.hex (UUID.uuid4 (w_entropy w (w_drawn w) mod 2 ^ 128)) in
  let envelope' := Py.dict_set "msgid" (VStr id) (w_heap w !!! newmsg) in
  Service_send_new self newmsg w
  = (Raise (Exn KeyError (Py.repr_key "fpath")),
     World (<[newmsg := envelope']> (w_heap w))
       (w_fs w) (w_entropy w) (S (w_drawn w)) (w_host w) (w_trace w)).
Proof.
  intros Hnodata Hnofpath id envelope'.
  unfold Service_send_new.
  rewrite (run_bind _ _ _ _ _ (get_id_run w)). fold id.
  rewrite (run_bind _ _ _ _ _ (setitem_run _ _ _ _)).
  rewrite (run_bind _ _ _ _ _ (contains_run _ _ _)).
  unfold set_heap, set_drawn.
  cbn [w_heap w_fs w_entropy w_drawn w_host w_trace].
  rewrite !lookup_total_insert_eq. fold envelope'.
  assert (Hhas : forall k, k <> "msgid" ->
            Py.dict_has k envelope' = Py.dict_has k (w_heap w !!! newmsg)).
  { intros k Hk. subst envelope'. rewrite dict_has_set.
    by destruct (String.eqb_spec "msgid" k). }
  rewrite Hhas, Hnodata by done.
  apply run_bind_raise, run_bind_raise.
  rewrite getitem_run. cbn [w_heap Py.subscript].
  rewrite lookup_total_insert_eq.
  assert (Hget : Py.dict_get "fpath" envelope' = None).
  { apply dict_has_false. by rewrite Hhas. }
  by rewrite Hget.
Qed.

(** ** What [json.dumps] accepts *)

(** Induction on values, through the lists and dicts they hold. *)
Lemma val_nested_ind (P : val -> Prop) :
  P VNone -> (forall b, P (VBool b)) -> (forall n, P (VInt n)) ->
  (forall s, P (VStr s)) ->
  (forall l, Forall P l -> P (VList l)) ->
  (forall d, Forall (fun p => P (snd p)) d -> P (VDict d)) ->
  (forall n, P (VOpaque n)) ->
  forall v, P v.
Proof.
  intros HNone HBool HInt HStr HList HDict HOpaque.
  fix IH 1. intros [|b|n|s|l|d|n].
  - exact HNone.
  - apply HBool.
  - apply HInt.
  - apply HStr.
  - apply HList. induction l as [|x l IHl]; constructor; [apply IH|exact IHl].
  - apply HDict. induction d as [|[k x] d IHd]; constructor;
      [apply IH|exact IHd].
  - apply HOpaque.
Qed.

(** [json.dumps] returns on a serializable value and raises
    [TypeError] on any other. *)
Lemma dumps_serializable v :
  if serializable v
  then exists text, Json.dumps v = Return text
  else exists e, Json.dumps v = Raise e /\ exn_cls e = TypeError.
Proof.
  induction v as [|b|n|s|l IH|d IH|n] using val_nested_ind;
    try (cbn; eauto; fail).
  - destruct b; cbn; eauto.
  - cbn [serializable Json.dumps].
    match goal with
    | |- context [mbind _ (?f l)] => set (items := f)
    end.
    assert (Hitems :
      if forallb serializable l
      then exists parts, items l = Return parts
      else exists e, items l = Raise e /\ exn_cls e = TypeError).
    { induction IH as [|x l Hx _ IHl]; [cbn; eauto|].
      cbn [forallb items]. fold items.
      destruct (serializable x).
      - destruct Hx as [s ->]. cbn [andb mbind outcome_bind].
        destruct (forallb serializable l).
        + destruct IHl as [parts ->]. cbn. eauto.
        + destruct IHl as (e & -> & He). cbn. eauto.
      - destruct Hx as (e & -> & He). cbn. eauto. }
    destruct (forallb serializable l).
    + destruct Hitems as [parts ->]. cbn. eauto.
    + destruct Hitems as (e & -> & He). cbn. eauto.
  - cbn [serializable Json.dumps].
    match goal with
    | |- context [mbind _ (?f d)] => set (items := f)
    end.
    assert (Hitems :
      if forallb (fun p => serializable (snd p)) d
      then exists parts, items d = Return parts
      else exists e, items d = Raise e /\ exn_cls e = TypeError).
    { induction IH as [|[k x] d Hx _ IHd]; [cbn; eauto|].
      cbn [forallb items snd]. fold items. cbn [snd] in Hx.
      destruct (serializable x).
      - destruct Hx as [s ->]. cbn [andb mbind outcome_bind].
        destruct (forallb (fun p => serializable (snd p)) d).
        + destruct IHd as [parts ->]. cbn. eauto.
        + destruct IHd as (e & -> & He). cbn. eauto.
      - destruct Hx as (e & -> & He). cbn. eauto. }
    destruct (forallb (fun p => serializable (snd p)) d).
    + destruct Hitems as [parts ->]. cbn. eauto.
    + destruct Hitems as (e & -> & He). cbn. eauto.
Qed.

(** X9: The executor guards [action()] only: when the callback
    returns, [__run__] returns the encoding of a result that is JSON
    data, and raises the [TypeError] of [json.dumps] for any other
    result. *)
Theorem run_encodes_or_raises cls self w v w' :
  action cls self w = (Return v, w') ->
  (serializable v = true ->
   exists text,
     Json.dumps v = Return text /\
     Action_run cls self w = (Return text, w')) /\
  (serializable v = false ->
   exists e,
     exn_cls e = TypeError /\
     Action_run cls self w = (Raise e, w')).
Proof.
  intros Hact.
  assert (Hrun : Action_run cls self w = (Json.dumps v, w')).
  { unfold Action_run, mbind, M_bind, try_except, lift. by rewrite Hact. }
  pose proof (dumps_serializable v) as Hdumps.
  split; intros Hs; rewrite Hs in Hdumps.
  - destruct Hdumps as [text Htext]. exists text.
    by rewrite Hrun, Htext.
  - destruct Hdumps as (e & Htext & He). exists e.
    by rewrite Hrun, Htext.
Qed.

(** ** Results handed back to the host *)

Lemma serializable_dict_set k v (d : dict) :
  serializable v = true ->
  forallb (fun p => serializable (snd p)) d = true ->
  forallb (fun p => serializable (snd p)) (Py.dict_set k v d) = true.
Proof.
  intros Hv Hd. unfold Py.dict_set. destruct (Py.dict_has k d).
  - induction d as [|[k' x] d IH]; [done|].
    cbn [map forallb fst snd] in *.
    apply andb_true_iff in Hd as [Hx Hd].
    destruct (String.eqb k' k); cbn [snd];
      rewrite IH by done; [by rewrite Hv|by rewrite Hx].
  - rewrite forallb_app, Hd. cbn. by rewrite Hv.
Qed.

Lemma serializable_dict_merge (a b : dict) :
  forallb (fun p => serializable (snd p)) a = true ->
  forallb (fun p => serializable (snd p)) b = true ->
  forallb (fun p => serializable (snd p)) (Py.dict_merge a b) = true.
Proof.
  unfold Py.dict_merge. revert a.
  induction b as [|[k v] b IH]; intros a Ha Hb; [done|].
  cbn [forallb snd] in Hb. apply andb_true_iff in Hb as [Hv Hb].
  cbn [fold_left fst snd]. apply IH; [|done].
  by apply serializable_dict_set.
Qed.

Lemma serializable_dict_lit (l : list (string * val)) :
  forallb (fun p => serializable (snd p)) l = true ->
  serializable (VDict (Py.dict_lit l)) = true.
Proof. intros Hl. by apply serializable_dict_merge. Qed.

(** X10: Every result builder returns JSON data when it is given JSON
    data, so an [action()] that returns what a builder gave it never
    makes the executor raise. *)
Theorem builders_return_json :
  (forall status key data,
     serializable status = true -> serializable data = true ->
     serializable (send_async status key data) = true) /\
  (forall status reason,
     serializable status = true ->
     serializable (default VNone reason) = true ->
     serializable (send_status status reason) = true) /\
  (forall status data meta,
     serializable status = true -> serializable data = true ->
     serializable (VDict meta) = true ->
     serializable (send_data status data meta) = true) /\
  (forall reason,
     serializable reason = true ->
     serializable (send_error reason) = true) /\
  (forall data code,
     serializable data = true -> serializable code = true ->
     serializable (send_resp_data data code) = true) /\
  (forall fpath code,
     serializable fpath = true -> serializable code = true ->
     serializable (send_resp_file fpath code) = true) /\
  (forall status fpath meta w v w',
     serializable status = true -> serializable (VDict meta) = true ->
     send_file status fpath meta w = (Return v, w') ->
     serializable v = true).
Proof.
  repeat apply conj.
  - intros status key data Hs Hd. unfold send_async.
    apply serializable_dict_lit. cbn [forallb snd].
    rewrite Hs, serializable_dict_lit; [done|]. cbn. by rewrite Hd.
  - intros status reason Hs Hr. unfold send_status.
    destruct (Py.truthy (default VNone reason));
      apply serializable_dict_lit; cbn [forallb snd];
      by rewrite Hs, ?Hr.
  - intros status data meta Hs Hd Hm. unfold send_data.
    apply serializable_dict_lit. cbn [forallb snd serializable].
    rewrite Hs, serializable_dict_merge; [done| |done].
    apply serializable_dict_lit. cbn. by rewrite Hd.
  - intros reason Hr. unfold send_error.
    apply serializable_dict_lit. cbn. by rewrite Hr.
  - intros data code Hd Hc. unfold send_resp_data.
    apply serializable_dict_lit. cbn [forallb snd].
    rewrite serializable_dict_lit; [done|]. cbn. by rewrite Hd, Hc.
  - intros fpath code Hp Hc. unfold send_resp_file.
    apply serializable_dict_lit. cbn [forallb snd].
    rewrite serializable_dict_lit; [done|]. cbn. by rewrite Hp, Hc.
  - intros status fpath meta w v w' Hs Hm Hrun.
    unfold send_file in Hrun.
    apply bind_return in Hrun as (size & w1 & _ & Hrun).
    injection Hrun as <- _.
    apply serializable_dict_lit. cbn [forallb snd serializable].
    rewrite Hs, serializable_dict_merge; [done| |done].
    by apply serializable_dict_lit.
Qed.

(** X11: The message [send_data] builds is [{"data": data}] overlaid
    with [meta]: every entry of [meta] is in it, so a [meta] with a
    [data] of its own replaces the data given; without one the data
    given is there. *)
Theorem send_data_result status data (meta : dict) :
  let m := Py.dict_merge [("data", data)] meta in
  send_data status data meta
  = VDict [("status", status); ("msg", VDict m)] /\
  (forall k v, Py.dict_get k meta = Some v -> Py.dict_get k m = Some v) /\
  (Py.dict_get "data" meta = None -> Py.dict_get "data" m = Some data) /\
  (forall k, k <> "data" -> Py.dict_get k m = Py.dict_get k meta).
Proof.
  intros m. split; [reflexivity|]. subst m.
  refine (conj _ (conj _ _)).
  - intros k v Hk. by rewrite dict_get_merge, Hk.
  - intros Hk. by rewrite dict_get_merge, Hk.
  - intros k Hk. rewrite dict_get_merge.
    destruct (Py.dict_get k meta); [done|]. cbn [Py.dict_get].
    by destruct (String.eqb_spec "data" k).
Qed.

(** X12: [get_data] returns the inline data when [msg] has a [data]
    that is true in a condition, without opening any file; otherwise
    it reads the file [msg["fpath"]] names, and raises [KeyError] when
    there is no [fpath]: a message whose inline data is empty is read
    from a file it may not have. *)
Theorem get_data_prefers_inline open_read self m :
  act_msg self = VDict m ->
  (forall data,
     Py.dict_get "data" m = Some data -> Py.truthy data = true ->
     Action_get_data open_read self = Return data) /\
  (forall fpath,
     Py.truthy (default VNone (Py.dict_get "data" m)) = false ->
     Py.dict_get "fpath" m = Some fpath ->
     Action_get_data open_read self = open_read fpath) /\
  (Py.truthy (default VNone (Py.dict_get "data" m)) = false ->
   Py.dict_get "fpath" m = None ->
   Action_get_data open_read self
   = Raise (Exn KeyError (Py.repr_key "fpath"))).
Proof.
  intros Hmsg. unfold Action_get_data. rewrite Hmsg.
  cbn [Py.get_method Py.subscript mbind outcome_bind].
  refine (conj _ (conj _ _)).
  - intros data Hdata Htrue. rewrite Hdata.
    change (default VNone (Some data)) with data. by rewrite Htrue.
  - intros fpath Hfalse Hfpath. by rewrite Hfalse, Hfpath.
  - intros Hfalse Hnone. by rewrite Hfalse, Hnone.
Qed.

(** ** The name of a file *)

Lemma to_list_app (a b : string) :
  Str.to_list (a +:+ b) = Str.to_list a ++ Str.to_list b.
Proof.
  unfold Str.to_list. induction a as [|c a IH]; [done|].
  simpl. f_equal. exact IH.
Qed.

Lemma existsb_absent c (s : list ascii) :
  Forall (fun x => x <> c) s -> existsb (Ascii.eqb c) s = false.
Proof.
  induction 1 as [|x s Hx _ IH]; [done|]. cbn. rewrite IH.
  by destruct (Ascii.eqb_spec c x).
Qed.

Lemma after_last_absent c s :
  Forall (fun x => x <> c) s -> Str.after_last c s = s.
Proof.
  destruct 1 as [|x s Hx Hs]; [done|]. cbn.
  rewrite existsb_absent by done. by destruct (Ascii.eqb_spec c x).
Qed.

Lemma after_last_app c d n :
  Forall (fun x => x <> c) n -> Str.after_last c (d ++ c :: n) = n.
Proof.
  intros Hn. induction d as [|x d IH]; cbn.
  - rewrite existsb_absent by done. by rewrite Ascii.eqb_refl.
  - rewrite existsb_app. cbn. by rewrite Ascii.eqb_refl, orb_true_r.
Qed.

Lemma after_last_free c s : Forall (fun x => x <> c) (Str.after_last c s).
Proof.
  induction s as [|x s IH]; [constructor|]. cbn.
  destruct (existsb (Ascii.eqb c) s) eqn:Hex; [exact IH|].
  assert (Hs : Forall (fun y => y <> c) s).
  { apply List.Forall_forall. intros y Hy ->.
    assert (existsb (Ascii.eqb c) s = true); [|congruence].
    apply existsb_exists. exists c. by rewrite Ascii.eqb_refl. }
  destruct (Ascii.eqb_spec c x) as [->|Hne]; [done|].
  constructor; [congruence|done].
Qed.

(** X13: The [fname] that [send_file] reports, for a file that exists
    and a [meta] with no [fname] of its own, is the last component of
    the path: it holds no slash; it is [name] for the path [dir/name]
    when [name] holds no slash, and the whole path when that holds
    none. *)
Theorem send_file_names_last_component status fpath (meta : dict) w size :
  w_fs w !! fpath = Some size ->
  Py.dict_get "fname" meta = None ->
  exists fname m,
    send_file status fpath meta w
    = (Return (VDict [("status", status); ("msg", VDict m)]), w) /\
    Py.dict_get "fname" m = Some (VStr fname) /\
    Forall (fun c => c <> "/"%char) (Str.to_list fname) /\
    (forall dir name,
       fpath = dir +:+ "/" +:+ name ->
       Forall (fun c => c <> "/"%char) (Str.to_list name) ->
       fname = name) /\
    (Forall (fun c => c <> "/"%char) (Str.to_list fpath) -> fname = fpath).
Proof.
  intros Hsize Hmeta.
  exists (Py.basename fpath). eexists.
  split.
  { unfold send_file, mbind, M_bind, Env.getsize. rewrite Hsize.
    reflexivity. }
  split; [by rewrite dict_get_merge, Hmeta|].
  unfold Py.basename. rewrite to_list_of_list.
  refine (conj (after_last_free _ _) (conj _ _)).
  - intros dir name -> Hname.
    rewrite !to_list_app. change (Str.to_list "/") with ["/"%char].
    cbn [app]. rewrite after_last_app by done. apply of_list_to_list.
  - intros Hfree. rewrite after_last_absent by done. apply of_list_to_list.
Qed.

(** ** Sends that go through *)

Lemma serializable_dict_remove k (d : dict) :
  forallb (fun p => serializable (snd p)) d = true ->
  forallb (fun p => serializable (snd p)) (Py.dict_remove k d) = true.
Proof.
  induction d as [|[k' x] d IH]; [done|]. cbn [forallb snd Py.dict_remove].
  intros [Hx Hd]%andb_true_iff.
  destruct (String.eqb k' k); [by apply IH|].
  cbn [forallb snd]. by rewrite Hx, IH.
Qed.

Lemma serializable_dict_get k (d : dict) v :
  forallb (fun p => serializable (snd p)) d = true ->
  Py.dict_get k d = Some v -> serializable v = true.
Proof.
  induction d as [|[k' x] d IH]; [done|]. cbn [forallb snd Py.dict_get].
  intros [Hx Hd]%andb_true_iff.
  destruct (Py.dict_get k d) as [y|] eqn:Hy.
  - intros [= <-]. by apply IH.
  - destruct (String.eqb k' k); [|done]. by intros [= <-].
Qed.

(** The payload statement runs as [payload_step] says. *)
Lemma payload_run msg newmsg w h' :
  payload_step (w_fs w) msg newmsg (w_heap w) h' ->
  (if Py.dict_has "data" (w_heap w !!! newmsg) then
     _ ← Env.delitem msg "fpath";
     data ← Env.getitem newmsg "data";
     n ← lift (Py.len data);
     Env.setitem newmsg "fsize" (VInt n)
   else
     has_fpath ← Env.contains newmsg "fpath";
     if (has_fpath : bool) then
       _ ← Env.delitem msg "data";
       fpath ← Env.getitem newmsg "fpath";
       n ← Env.getsize fpath;
       Env.setitem newmsg "fsize" (VInt n)
     else mret tt) w = (Return tt, set_heap h' w).
Proof.
  intros Hstep.
  inversion Hstep as [data n Hdata Hfpath h1 Hget Hlen Hh'
                     |path n Hdata Hfpath Hhas h1 Hget Hsize Hh'
                     |Hdata Hfpath Hh']; subst h'; rewrite Hdata.
  - erewrite run_bind by (apply delitem_return; split; [exact Hfpath|done]).
    erewrite run_bind by (apply getitem_return; split; [exact Hget|done]).
    erewrite run_bind by (apply lift_return; split; [exact Hlen|done]).
    rewrite setitem_run. by destruct w.
  - rewrite (run_bind _ _ _ _ _ (contains_run _ _ _)), Hfpath.
    erewrite run_bind by (apply delitem_return; split; [exact Hhas|done]).
    erewrite run_bind by (apply getitem_return; split; [exact Hget|done]).
    erewrite run_bind
      by (apply getsize_return; exists path; split; [done|];
          split; [exact Hsize|done]).
    rewrite setitem_run. by destruct w.
  - rewrite (run_bind _ _ _ _ _ (contains_run _ _ _)), Hfpath.
    by destruct w.
Qed.

(** The converse of [send_message_return]. *)
Lemma send_message_run self msg newmsg w parent h' merged parms :
  let id := UUID.hex (UUID.uuid4 (w_entropy w (w_drawn w) mod 2 ^ 128)) in
  Py.dict_get "msgid" (w_heap w !!! msg) = Some parent ->
  payload_step (w_fs w) msg newmsg
    (<[newmsg := Py.dict_set "msgid" (VStr id)
                   (Py.dict_set "parent" parent (w_heap w !!! newmsg))]>
       (w_heap w)) h' ->
  Json.dumps (VDict (Py.dict_merge (h' !!! msg) (h' !!! newmsg)))
    = Return merged ->
  Json.dumps (svc_parms self) = Return parms ->
  w_host w (w_trace w ++ [send_message_call self merged parms]) = None ->
  Service_send_message self msg newmsg w
  = (Return id,
     World h' (w_fs w) (w_entropy w) (S (w_drawn w)) (w_host w)
       (w_trace w ++ [send_message_call self merged parms])).
Proof.
  intros id Hparent Hstep Hmerged Hparms Hhost.
  assert (Hget : Env.getitem msg "msgid" (set_drawn (S (w_drawn w)) w)
                 = (Return parent, set_drawn (S (w_drawn w)) w)).
  { rewrite getitem_run. cbn [Py.subscript w_heap set_drawn].
    by rewrite Hparent. }
  unfold Service_send_message.
  rewrite (run_bind _ _ _ _ _ (get_id_run w)). fold id.
  rewrite (run_bind _ _ _ _ _ Hget).
  rewrite (run_bind _ _ _ _ _ (setitem_run _ _ _ _)).
  rewrite (run_bind _ _ _ _ _ (setitem_run _ _ _ _)).
  match goal with
  | |- (_ ≫= _) ?w1 = _ =>
      replace w1
        with (World (<[newmsg := Py.dict_set "msgid" (VStr id)
                        (Py.dict_set "parent" parent (w_heap w !!! newmsg))]>
                       (w_heap w))
                (w_fs w) (w_entropy w) (S (w_drawn w)) (w_host w) (w_trace w))
        by (unfold set_heap, set_drawn;
            cbn [w_heap w_fs w_entropy w_drawn w_host w_trace];
            by rewrite !lookup_total_insert_eq, insert_insert_eq)
  end.
  rewrite (run_bind _ _ _ _ _ (contains_run _ _ _)).
  erewrite run_bind by (apply payload_run; exact Hstep).
  unfold set_heap. cbn [w_heap w_fs w_entropy w_drawn w_host w_trace].
  rewrite (run_bind _ _ _ _ _ (load_run _ _)).
  rewrite (run_bind _ _ _ _ _ (load_run _ _)).
  cbn [w_heap].
  erewrite run_bind by (apply lift_return; split; [exact Hmerged|done]).
  erewrite run_bind by (apply lift_return; split; [exact Hparms|done]).
  unfold Env.call.
  erewrite run_bind by (apply host_return; split; [exact Hhost|done]).
  reflexivity.
Qed.

Lemma serializable_after_insert (h : gmap loc dict) l l' d :
  forallb (fun p => serializable (snd p)) d = true ->
  forallb (fun p => serializable (snd p)) (h !!! l') = true ->
  forallb (fun p => serializable (snd p)) (<[l := d]> h !!! l') = true.
Proof.
  intros Hd Hl'. destruct (decide (l = l')) as [->|Hne].
  - by rewrite lookup_total_insert_eq.
  - by rewrite lookup_total_insert_ne.
Qed.

Lemma get_after_insert (h : gmap loc dict) l l' d k :
  Py.dict_get k d = Py.dict_get k (h !!! l) ->
  Py.dict_get k (<[l := d]> h !!! l') = Py.dict_get k (h !!! l').
Proof.
  intros Hd. destruct (decide (l = l')) as [->|Hne].
  - by rewrite lookup_total_insert_eq.
  - by rewrite lookup_total_insert_ne.
Qed.

Lemma dumps_returns v :
  serializable v = true -> exists text, Json.dumps v = Return text.
Proof.
  intros Hv. pose proof (dumps_serializable v) as H. by rewrite Hv in H.
Qed.

(** X14: A derived send returns, with the identifier drawn, whenever:
    the original has a [msgid]; both envelopes and the service's
    [parms] are JSON data; the overlay's payload can be switched to
    (with [data] in the overlay, the original has an [fpath] to drop
    and the data has a length; with [fpath] and no [data], the
    original has a [data] to drop and the path names a file); and the
    transport delivers. *)
Theorem send_message_returns self msg newmsg w parent :
  let original := w_heap w !!! msg in
  let overlay := w_heap w !!! newmsg in
  Py.dict_get "msgid" original = Some parent ->
  serializable (VDict original) = true ->
  serializable (VDict overlay) = true ->
  serializable (svc_parms self) = true ->
  match Py.dict_get "data" overlay with
  | Some data =>
      Py.dict_has "fpath" original = true /\
      exists n, Py.len data = Return n
  | None =>
      match Py.dict_get "fpath" overlay with
      | Some p =>
          Py.dict_has "data" original = true /\
          exists path size, p = VStr path /\ w_fs w !! path = Some size
      | None => True
      end
  end ->
  (forall op, w_host w (w_trace w ++ [op]) = None) ->
  exists w',
    Service_send_message self msg newmsg w
    = (Return (UUID.hex (UUID.uuid4 (w_entropy w (w_drawn w) mod 2 ^ 128))),
       w').
Proof.
  intros original overlay Hparent Horiginal Hoverlay Hparms Hpayload Hhost.
  cbn [serializable] in Horiginal, Hoverlay.
  set (id := UUID.hex _).
  set (overlay' := Py.dict_set "msgid" (VStr id)
                     (Py.dict_set "parent" parent overlay)).
  set (h := <[newmsg := overlay']> (w_heap w)).
  assert (Hoverlay' : forallb (fun p => serializable (snd p)) overlay' = true).
  { subst overlay'. apply serializable_dict_set; [done|].
    apply serializable_dict_set; [|done].
    exact (serializable_dict_get "msgid" original parent Horiginal Hparent). }
  assert (Hser : forall l, l = msg \/ l = newmsg ->
            forallb (fun p => serializable (snd p)) (h !!! l) = true).
  { intros l Hl. apply serializable_after_insert; [done|].
    by destruct Hl as [->| ->]. }
  assert (Hkeep : forall l k, k <> "parent" -> k <> "msgid" ->
            Py.dict_get k (h !!! l) = Py.dict_get k (w_heap w !!! l)).
  { intros l k Hp Hm. apply get_after_insert.
    subst overlay' overlay. rewrite !dict_get_set.
    destruct (String.eqb_spec "msgid" k) as [<-|_]; [done|].
    by destruct (String.eqb_spec "parent" k) as [<-|_]. }
  assert (Hhas : forall l k, k <> "parent" -> k <> "msgid" ->
            Py.dict_has k (h !!! l) = Py.dict_has k (w_heap w !!! l)).
  { intros l k Hp Hm. unfold Py.dict_has. by rewrite Hkeep. }
  assert (Hstep : exists h',
    payload_step (w_fs w) msg newmsg h h' /\
    forallb (fun p => serializable (snd p)) (h' !!! msg) = true /\
    forallb (fun p => serializable (snd p)) (h' !!! newmsg) = true).
  { destruct (Py.dict_get "data" overlay) as [data|] eqn:Hdata.
    - destruct Hpayload as (Hfpath & n & Hlen).
      eexists. split; [|split].
      + eapply (payload_data _ _ _ _ data n); try done.
        * apply dict_has_true. exists data. by rewrite Hkeep.
        * by rewrite Hhas.
        * rewrite get_after_insert; [by rewrite Hkeep|].
          by rewrite dict_get_remove.
      + apply serializable_after_insert.
        * apply serializable_dict_set; [done|].
          apply serializable_after_insert; [|auto].
          apply serializable_dict_remove. auto.
        * apply serializable_after_insert; [|auto].
          apply serializable_dict_remove. auto.
      + rewrite lookup_total_insert_eq.
        apply serializable_dict_set; [done|].
        apply serializable_after_insert; [|auto].
        apply serializable_dict_remove. auto.
    - destruct (Py.dict_get "fpath" overlay) as [p|] eqn:Hfpath.
      + destruct Hpayload as (Hhasdata & path & size & -> & Hsize).
        eexists. split; [|split].
        * eapply (payload_fpath _ _ _ _ path size); try done.
          -- apply dict_has_false. by rewrite Hkeep.
          -- apply dict_has_true. exists (VStr path). by rewrite Hkeep.
          -- by rewrite Hhas.
          -- rewrite get_after_insert; [by rewrite Hkeep|].
             by rewrite dict_get_remove.
        * apply serializable_after_insert.
          -- apply serializable_dict_set; [done|].
             apply serializable_after_insert; [|auto].
             apply serializable_dict_remove. auto.
          -- apply serializable_after_insert; [|auto].
             apply serializable_dict_remove. auto.
        * rewrite lookup_total_insert_eq.
          apply serializable_dict_set; [done|].
          apply serializable_after_insert; [|auto].
          apply serializable_dict_remove. auto.
      + exists h. split; [|split; auto].
        apply payload_none; apply dict_has_false; by rewrite Hkeep. }
  destruct Hstep as (h' & Hstep & Hmsg & Hnewmsg).
  destruct (dumps_returns (VDict (Py.dict_merge (h' !!! msg) (h' !!! newmsg))))
    as [merged Hmerged].
  { cbn [serializable]. by apply serializable_dict_merge. }
  destruct (dumps_returns (svc_parms self) Hparms) as [parms Hparms'].
  eexists.
  apply (send_message_run self msg newmsg w parent h' merged parms);
    try done.
Qed.


(** ** Construction and dispatch, case by case *)


Section Callbacks.

Variable json_loads : string -> outcome val.

(** Once [Action.__init__] has returned, [msg] is a dict: it answered
    [get]. *)
Lemma action_init_msg_dict msgdata self :
  Action_init json_loads msgdata = Return self ->
  exists m, act_msg self = VDict m.
Proof.
  unfold Action_init. intros H.
  apply outcome_bind_return in H as (payload & _ & H).
  apply outcome_bind_return in H as (msg & _ & H).
  apply outcome_bind_return in H as (parms & _ & H).
  apply outcome_bind_return in H as (sysparms & _ & H).
  apply outcome_bind_return in H as (extra & _ & H).
  apply outcome_bind_return in H as (flag & _ & H).
  apply outcome_bind_return in H as (provider & _ & H).
  apply outcome_bind_return in H as (sid & Hsid & H).
  apply outcome_bind_return in H as (logger & _ & H).
  injection H as <-. cbn [act_msg].
  destruct msg as [| | | | |m|]; try discriminate Hsid. by exists m.
Qed.

(** X16: What a completed construction has read: the payload decodes
    to a dict whose [msg] is itself a dict; [msg], [parms] and
    [sysparms] are the payload's, [extra] is [parms["parms"]]; the
    logger is bound to no service and carries [msg["sid"]] when that
    is present and true in a condition, the empty string otherwise. *)
Theorem action_init_attributes msgdata self :
  Action_init json_loads msgdata = Return self ->
  exists payload m,
    json_loads msgdata = Return payload /\
    Py.subscript payload "msg" = Return (VDict m) /\
    act_msg self = VDict m /\
    Py.subscript payload "parms" = Return (act_parms self) /\
    Py.subscript payload "sysparms" = Return (act_sysparms self) /\
    Py.subscript (act_parms self) "parms" = Return (act_extra self) /\
    lg_service (act_logger self) = None /\
    lg_sid (act_logger self)
    = match Py.dict_get "sid" m with
      | Some sid => if Py.truthy sid then sid else VStr ""
      | None => VStr ""
      end.
Proof.
  unfold Action_init. intros H.
  apply outcome_bind_return in H as (payload & Hpayload & H).
  apply outcome_bind_return in H as (msg & Hmsg & H).
  apply outcome_bind_return in H as (parms & Hparms & H).
  apply outcome_bind_return in H as (sysparms & Hsys & H).
  apply outcome_bind_return in H as (extra & Hextra & H).
  apply outcome_bind_return in H as (flag & _ & H).
  apply outcome_bind_return in H as (provider & _ & H).
  apply outcome_bind_return in H as (sid & Hsid & H).
  apply outcome_bind_return in H as (logger & Hlogger & H).
  injection H as <-.
  destruct msg as [| | | | |m|]; try discriminate Hsid.
  injection Hsid as <-.
  exists payload, m. cbn [act_msg act_parms act_sysparms act_extra act_logger].
  do 6 (split; [done|]).
  cbn [Py.subscript] in Hlogger.
  destruct (Py.dict_get "sid" m) as [sid|]; simpl in Hlogger.
  - destruct (Py.truthy sid); injection Hlogger as <-; split; reflexivity.
  - injection Hlogger as <-. split; reflexivity.
Qed.

(** X17: An endpoint is constructed whenever the action is, and fails
    as it does: [msg] is a dict once [Action.__init__] has returned,
    so the two [get] calls return, with [None] for a missing key. *)
Theorem endpoint_init_extends_action msgdata :
  (forall self,
     Action_init json_loads msgdata = Return self ->
     exists m,
       act_msg self = VDict m /\
       Endpoint_init json_loads msgdata
       = Return (MkEndpoint self
                   (default VNone (Py.dict_get "path_params" m))
                   (default VNone (Py.dict_get "query_params" m)))) /\
  (forall e,
     Action_init json_loads msgdata = Raise e ->
     Endpoint_init json_loads msgdata = Raise e).
Proof.
  split.
  - intros self Hinit.
    destruct (action_init_msg_dict msgdata self Hinit) as [m Hmsg].
    exists m. split; [exact Hmsg|].
    unfold Endpoint_init. rewrite Hinit. cbn [mbind outcome_bind].
    by rewrite Hmsg.
  - intros e Hinit. unfold Endpoint_init. by rewrite Hinit.
Qed.

(** X18: [__init__] of a service: with both documents decoded and
    [config] present in [parms], the instance holds them and
    [initialize] runs on it; what [initialize] raises, the constructor
    raises. With no [config] the constructor raises before
    [initialize] runs. *)
Theorem service_init_runs_initialize cls parms sysparms pid env handler
    lhandler w p s :
  json_loads parms = Return p ->
  json_loads sysparms = Return s ->
  (forall c,
     Py.subscript p "config" = Return c ->
     let self := MkService p s c env pid handler lhandler in
     lg_service (svc_logger self) = Some self /\
     Service_init json_loads cls parms sysparms pid env handler lhandler w
     = match initialize cls self w with
       | (Return _, w') => (Return self, w')
       | (Raise e, w') => (Raise e, w')
       end) /\
  (forall e,
     Py.subscript p "config" = Raise e ->
     Service_init json_loads cls parms sysparms pid env handler lhandler w
     = (Raise e, w)).
Proof.
  intros Hp Hs. split.
  - intros c Hc self. split; [reflexivity|].
    unfold Service_init, mbind, M_bind, lift. rewrite Hp, Hs, Hc.
    fold self. by destruct (initialize cls self w) as [[[]|e] w'].
  - intros e He. unfold Service_init, mbind, M_bind, lift.
    by rewrite Hp, Hs, He.
Qed.



End Callbacks.

(** ** The properties on concrete runs *)

Lemma send_message_without_msgid_scenario :
  let r := Service_send_message Scenario.service 0%nat 1%nat
             Scenario.orphan in
  fst r = Raise (Exn KeyError "'msgid'") /\
  w_heap (snd r) = w_heap Scenario.orphan /\
  w_trace (snd r) = [].
Proof.
  intros r. subst r.
  rewrite (send_message_without_msgid Scenario.service 0%nat 1%nat
             Scenario.orphan) by (vm_compute; reflexivity).
  repeat split.
Defined.

(** The usage the class documents, [send_message(msg, {"data": ...})],
    on a message that is itself inline. *)
Lemma send_message_nothing_to_switch_scenario :
  let r := Service_send_message Scenario.service 0%nat 1%nat
             Scenario.inline_twice in
  fst r = Raise (Exn KeyError "'fpath'") /\
  w_heap (snd r) !!! 1%nat
  = [("data", VStr "new"); ("parent", VStr "A");
     ("msgid", VStr Scenario.derived_id)] /\
  w_trace (snd r) = [].
Proof.
  intros r. subst r.
  rewrite (proj1 (send_message_nothing_to_switch Scenario.service 0%nat
                    1%nat Scenario.inline_twice (VStr "A") eq_refl))
    by (vm_compute; reflexivity).
  cbn [fst snd w_heap w_trace]. split; [reflexivity|].
  split; vm_compute; reflexivity.
Defined.

Lemma send_message_fails_after_deleting_scenario :
  let r := Service_send_message Scenario.service 0%nat 1%nat
             Scenario.unsized in
  fst r = Raise (Exn TypeError "object of type 'NoneType' has no len()") /\
  w_heap (snd r) !!! 0%nat = [("msgid", VStr "A")] /\
  w_trace (snd r) = [].
Proof.
  intros r. subst r.
  rewrite (send_message_fails_after_deleting Scenario.service 0%nat 1%nat
             Scenario.unsized (VStr "A") VNone
             (Exn TypeError "object of type 'NoneType' has no len()"))
    by (vm_compute; first [reflexivity | discriminate]).
  cbn [fst snd w_heap w_trace]. split; [reflexivity|].
  split; vm_compute; reflexivity.
Defined.

Lemma send_new_without_payload_scenario :
  let r := Service_send_new Scenario.service 0%nat Scenario.bare in
  fst r = Raise (Exn KeyError "'fpath'") /\
  w_heap (snd r) !!! 0%nat
  = [("note", VStr "x"); ("msgid", VStr Scenario.derived_id)] /\
  w_trace (snd r) = [].
Proof.
  intros r. subst r.
  rewrite (send_new_without_payload Scenario.service 0%nat Scenario.bare)
    by (vm_compute; reflexivity).
  cbn [fst snd w_heap w_trace]. split; [reflexivity|].
  split; vm_compute; reflexivity.
Defined.

Lemma action_init_attributes_scenario :
  exists self,
    Action_init (Scenario.decoder [Scenario.request])
      (Scenario.text_of Scenario.request) = Return self /\
    act_msg self = VDict [("msgid", VStr "A"); ("sid", VStr "s1")] /\
    lg_service (act_logger self) = None /\
    lg_sid (act_logger self) = VStr "s1".
Proof.
  destruct (Action_init (Scenario.decoder [Scenario.request])
              (Scenario.text_of Scenario.request)) as [self|e] eqn:Hinit;
    [|vm_compute in Hinit; discriminate Hinit].
  destruct (action_init_attributes _ _ _ Hinit)
    as (payload & m & Hpayload & Hsub & Hmsg & _ & _ & _ & Hservice & Hsid).
  vm_compute in Hpayload. injection Hpayload as <-.
  vm_compute in Hsub. injection Hsub as <-.
  exists self. exact (conj eq_refl (conj Hmsg (conj Hservice Hsid))).
Defined.

Lemma endpoint_init_extends_action_scenario :
  exists self,
    Action_init (Scenario.decoder [Scenario.request])
      (Scenario.text_of Scenario.request) = Return self /\
    Endpoint_init (Scenario.decoder [Scenario.request])
      (Scenario.text_of Scenario.request)
    = Return (MkEndpoint self VNone VNone).
Proof.
  destruct (Action_init (Scenario.decoder [Scenario.request])
              (Scenario.text_of Scenario.request)) as [self|e] eqn:Hinit;
    [|vm_compute in Hinit; discriminate Hinit].
  destruct (proj1 (endpoint_init_extends_action
                     (Scenario.decoder [Scenario.request])
                     (Scenario.text_of Scenario.request)) self Hinit)
    as (m & Hmsg & Hep).
  vm_compute in Hinit. injection Hinit as <-.
  vm_compute in Hmsg. injection Hmsg as <-.
  eexists. split; [reflexivity|]. exact Hep.
Defined.

Lemma service_init_runs_initialize_scenario :
  Service_init
    (Scenario.decoder [Scenario.service_parms; Scenario.service_sysparms])
    Service_class (Scenario.text_of Scenario.service_parms)
    (Scenario.text_of Scenario.service_sysparms) 1 (VStr "default") 2 3
    Scenario.idle
  = (Return Scenario.service, Scenario.idle).
Proof.
  destruct (service_init_runs_initialize
              (Scenario.decoder
                 [Scenario.service_parms; Scenario.service_sysparms])
              Service_class (Scenario.text_of Scenario.service_parms)
              (Scenario.text_of Scenario.service_sysparms) 1 (VStr "default")
              2 3 Scenario.idle Scenario.service_parms
              Scenario.service_sysparms)
    as [Hok _].
  { vm_compute. reflexivity. }
  { vm_compute. reflexivity. }
  destruct (Hok (VDict []) eq_refl) as [_ Hrun].
  exact Hrun.
Defined.



(** The default [action()] gives [{"status": "completed"}]; a callback
    that returns a [set] makes [__run__] raise. *)
Lemma run_encodes_or_raises_scenario :
  (exists text,
     Action_run Action_class Scenario.act Scenario.idle
     = (Return text, Scenario.idle) /\
     Scenario.show text = "{'status': 'completed'}") /\
  (exists e,
     Action_run Scenario.returning_set Scenario.act Scenario.idle
     = (Raise e, Scenario.idle) /\
     exn_cls e = TypeError).
Proof.
  split.
  - destruct (run_encodes_or_raises Action_class Scenario.act Scenario.idle
                (VDict [("status", VStr "completed")]) Scenario.idle
                eq_refl) as [Hjson _].
    destruct (Hjson eq_refl) as (text & Htext & Hrun).
    vm_compute in Htext. injection Htext as <-.
    eexists. split; [exact Hrun|reflexivity].
  - destruct (run_encodes_or_raises Scenario.returning_set Scenario.act
                Scenario.idle (VOpaque "set") Scenario.idle eq_refl)
      as [_ Hother].
    destruct (Hother eq_refl) as (e & He & Hrun).
    exists e. exact (conj Hrun He).
Defined.

Lemma get_data_prefers_inline_scenario :
  Action_get_data Scenario.reader Scenario.inline_empty
  = Raise (Exn KeyError "'fpath'").
Proof.
  destruct (get_data_prefers_inline Scenario.reader Scenario.inline_empty
              [("msgid", VStr "A"); ("data", VStr "")] eq_refl)
    as (_ & _ & Hnone).
  apply Hnone; vm_compute; reflexivity.
Defined.

Lemma send_file_names_last_component_scenario :
  exists m,
    send_file (VStr "completed") "/tmp/out.txt" [("partner", VStr "acme")]
      (Scenario.exchange [] [])
    = (Return (VDict [("status", VStr "completed"); ("msg", VDict m)]),
       Scenario.exchange [] []) /\
    Py.dict_get "fname" m = Some (VStr "out.txt").
Proof.
  destruct (send_file_names_last_component (VStr "completed")
              "/tmp/out.txt" [("partner", VStr "acme")]
              (Scenario.exchange [] []) 42)
    as (fname & m & Hrun & Hfname & _ & Hlast & _).
  { vm_compute. reflexivity. }
  { vm_compute. reflexivity. }
  rewrite (Hlast "/tmp" "out.txt") in Hfname.
  - exists m. exact (conj Hrun Hfname).
  - reflexivity.
  - vm_compute. repeat constructor; discriminate.
Defined.

(** Draws that differ in bit 62 only give the same identifier. *)
Lemma ids_collide_on_kept_bits_scenario :
  Z.lor 7 (Z.shiftl 1 62) = 7 + 2 ^ 62 /\
  Util.id_of_random 7 = Util.id_of_random (Z.lor 7 (Z.shiftl 1 62)).
Proof.
  split; [reflexivity|].
  apply (ids_collide_on_kept_bits 7 (Z.lor 7 (Z.shiftl 1 62)));
    [vm_compute; split; [discriminate|reflexivity]..|].
  intros i Hi H62 H76.
  rewrite Z.lor_spec, Z.shiftl_spec by lia.
  destruct (Z.ltb_spec i 62).
  - rewrite (Z.testbit_neg_r 1) by lia. by rewrite orb_false_r.
  - rewrite (Z.bits_above_log2 1) by (cbn; lia). by rewrite orb_false_r.
Defined.

(** The derived send of scenario 4 meets every condition. *)
Lemma send_message_returns_scenario :
  exists w',
    Service_send_message Scenario.service 0%nat 1%nat Scenario.derived
    = (Return Scenario.derived_id, w').
Proof.
  pose proof (send_message_returns Scenario.service 0%nat 1%nat
                Scenario.derived (VStr "A")) as H.
  cbv zeta in H.
  destruct H as [w' Hrun].
  - vm_compute. reflexivity.
  - vm_compute. reflexivity.
  - vm_compute. reflexivity.
  - vm_compute. reflexivity.
  - vm_compute. split; [reflexivity|]. eexists. reflexivity.
  - intros op. reflexivity.
  - exists w'.
    replace Scenario.derived_id
      with (UUID.hex
              (UUID.uuid4
                 (w_entropy Scenario.derived (w_drawn Scenario.derived)
                  mod 2 ^ 128)))
      by (vm_compute; reflexivity).
    exact Hrun.
Defined.

